(** * citework: the citation formatter (src/formatter.ts)

    A shallow embedding of the normalisation and rendering layer of
    citework: the Crossref adapter and the five style renderers, together
    with the JavaScript string primitives they are written with.

    Strings.  A JavaScript string is a sequence of UTF-16 code units.  The
    embedding uses [string], whose characters are read as the code units
    0..255 (the Latin-1 block); on that range [toLowerCase] and [trim]
    below are the ECMAScript operations.

    Numbers.  [year?: number] is an integer or NaN ([getFullYear] of an
    invalid date); an integer is printed in decimal, as JavaScript does for
    magnitudes below 10^21. *)

From Stdlib Require Import ZArith List String Ascii Bool Lia DecimalString.
Import ListNotations.
Open Scope string_scope.

(** ** JavaScript primitives *)

Module JS.

(** Code units of the Latin-1 block that have a lower-case counterpart:
    A-Z, and the accented capitals 192..222 except the multiplication
    sign 215. *)
Definition isUpper (c : ascii) : bool :=
  let n := nat_of_ascii c in
  ((65 <=? n)%nat && (n <=? 90)%nat) ||
  ((192 <=? n)%nat && (n <=? 222)%nat && negb (n =? 215)%nat).

Definition toLowerCaseChar (c : ascii) : ascii :=
  if isUpper c then ascii_of_nat (nat_of_ascii c + 32) else c.

(** [String.prototype.toLowerCase]. *)
Fixpoint toLowerCase (s : string) : string :=
  match s with
  | EmptyString => EmptyString
  | String c r => String (toLowerCaseChar c) (toLowerCase r)
  end.

(** WhiteSpace and LineTerminator code units below 256:
    TAB, LF, VT, FF, CR, SP and NBSP. *)
Definition isWhiteSpace (c : ascii) : bool :=
  let n := nat_of_ascii c in
  ((9 <=? n)%nat && (n <=? 13)%nat) || (n =? 32)%nat || (n =? 160)%nat.

Fixpoint trimStart (s : string) : string :=
  match s with
  | EmptyString => EmptyString
  | String c r => if isWhiteSpace c then trimStart r else s
  end.

Fixpoint trimEnd (s : string) : string :=
  match s with
  | EmptyString => EmptyString
  | String c r =>
      match trimEnd r with
      | EmptyString => if isWhiteSpace c then EmptyString
                       else String c EmptyString
      | r' => String c r'
      end
  end.

(** [String.prototype.trim]. *)
Definition trim (s : string) : string := trimEnd (trimStart s).

(** [s.includes(sub)]: [sub] occurs in [s] at some position. *)
Fixpoint includes (s sub : string) : bool :=
  prefix sub s ||
  match s with
  | EmptyString => false
  | String _ r => includes r sub
  end.

(** [s.split(sep)] for a one-character separator: the pieces between
    the separators, empty pieces included; never the empty array. *)
Fixpoint split (sep : ascii) (s : string) : list string :=
  match s with
  | EmptyString => [EmptyString]
  | String c r =>
      if Ascii.eqb c sep then EmptyString :: split sep r
      else match split sep r with
           | [] => [String c EmptyString]
           | p :: ps => String c p :: ps
           end
  end.

(** [xs.join(sep)]. *)
Definition join (sep : string) (xs : list string) : string :=
  String.concat sep xs.

(** [xs.slice(0, -1)]: all but the last element. *)
Definition sliceInit {A} (xs : list A) : list A := removelast xs.

(** The numbers a [year] can hold. *)
Inductive number : Type :=
| NaN
| Int (z : Z).

(** Number to string, as in a template literal. *)
Definition numberToString (n : number) : string :=
  match n with
  | NaN => "NaN"
  | Int z => NilZero.string_of_int (Z.to_int z)
  end.

(** ToBoolean, the test behind [if (x)], [x ? a : b] and [x || d]. *)
Class Truthy (A : Type) := truthy : A -> bool.

#[export] Instance truthy_string : Truthy string :=
  fun s => negb (s =? "").

#[export] Instance truthy_number : Truthy number :=
  fun n => match n with NaN => false | Int z => negb (z =? 0)%Z end.

(** An optional field: [undefined] is falsy. *)
#[export] Instance truthy_option {A} `{Truthy A} : Truthy (option A) :=
  fun o => match o with Some a => truthy a | None => false end.

(** The shape shared by [if (x) ...], [x ? f(x) : d] and [x || d] on an
    optional field [x]: [f x] when [x] is truthy, [d] otherwise. *)
Definition whenTruthy {A B} `{Truthy A} (o : option A) (f : A -> B) (d : B) : B :=
  match o with
  | Some a => if truthy a then f a else d
  | None => d
  end.

(** [x || d] on an optional string with a string default. *)
Definition orElse (o : option string) (d : string) : string :=
  whenTruthy o (fun s => s) d.

(** [xs[0]] and [xs.pop()]: [undefined] on the empty array. *)
Definition first {A} (xs : list A) : option A := nth_error xs 0.
Definition pop {A} (xs : list A) : option A :=
  nth_error xs (List.length xs - 1).

End JS.
Import JS.

Definition space : ascii := " "%char.
Definition newline : string := String (ascii_of_nat 10) EmptyString.
Definition dquote : string := String (ascii_of_nat 34) EmptyString.

(** ** The unified citation (formatter.ts, lines 3-15) *)

Inductive CitationType : Type := book | article | paper | unknown.
Inductive CitationSource : Type := crossref | googlebooks | openlibrary.

Record UnifiedCitation : Type := mkCitation {
  title : string;
  authors : list string;
  year : option number;
  publisher : option string;
  doi : option string;
  isbn : option (list string);
  url : option string;
  abstract_ : option string;
  type : CitationType;
  source : CitationSource;
  language : option string
}.

(** [citation.type === 'book']. *)
Definition isBook (t : CitationType) : bool :=
  match t with book => true | _ => false end.

(** ** Helpers (formatter.ts, lines 17-104) *)

Definition mapCrossrefType (ty : string) : CitationType :=
  let lowerType := toLowerCase ty in
  if includes lowerType "book" then book
  else if includes lowerType "journal" || includes lowerType "article" then article
  else if includes lowerType "proceedings" || includes lowerType "paper" then paper
  else unknown.

(** [split] never yields the empty array, so the default of [last] is
    not reached. *)
Definition formatAuthorLastFirst (name : string) : string :=
  let parts := split space (trim name) in
  match parts with
  | [p] => p
  | _ =>
      let lastName := last parts "" in
      let firstNames := join " " (sliceInit parts) in
      lastName ++ ", " ++ firstNames
  end.

Definition formatAuthorsAPA (authors : list string) : string :=
  match authors with
  | [] => "Unknown Author"
  | [a] => formatAuthorLastFirst a
  | [a; b] => formatAuthorLastFirst a ++ " & " ++ formatAuthorLastFirst b
  | _ =>
      let formatted := map formatAuthorLastFirst (sliceInit authors) in
      join ", " formatted ++ ", & " ++ formatAuthorLastFirst (last authors "")
  end.

Definition formatAuthorsMLA (authors : list string) : string :=
  match authors with
  | [] => "Unknown Author"
  | [a] => formatAuthorLastFirst a
  | [a; b] => formatAuthorLastFirst a ++ ", and " ++ b
  | a :: _ => formatAuthorLastFirst a ++ ", et al"
  end.

Definition formatAuthorsChicago (authors : list string) : string :=
  match authors with
  | [] => "Unknown Author"
  | [a] => formatAuthorLastFirst a
  | [a; b] => formatAuthorLastFirst a ++ " and " ++ b
  | _ =>
      let formatted := map formatAuthorLastFirst (sliceInit authors) in
      join ", " formatted ++ ", and " ++ last authors ""
  end.

Definition formatAuthorsHarvard (authors : list string) : string :=
  match authors with
  | [] => "Unknown Author"
  | [a] => formatAuthorLastFirst a
  | [a; b] => formatAuthorLastFirst a ++ " and " ++ formatAuthorLastFirst b
  | a :: _ => formatAuthorLastFirst a ++ " et al."
  end.

(** The three interpolated parts of the key, the constants [author],
    [year] and [titleWord] of [generateBibTeXKey]. *)
Definition keyAuthor (citation : UnifiedCitation) : string :=
  orElse (match first (authors citation) with
          | Some a => option_map toLowerCase (pop (split space a))
          | None => None
          end) "unknown".

Definition keyYear (citation : UnifiedCitation) : string :=
  whenTruthy (year citation) numberToString "nodate".

Definition keyTitleWord (citation : UnifiedCitation) : string :=
  orElse (option_map toLowerCase (first (split space (title citation))))
         "untitled".

Definition generateBibTeXKey (citation : UnifiedCitation) : string :=
  keyAuthor citation ++ keyYear citation ++ keyTitleWord citation.

(** ** The Crossref adapter (sources.ts, lines 1-49; formatter.ts, 106-128)

    The fields [fromCrossref] reads, named [ref_...] to keep them apart
    from the citation's fields of the same names.  Those it reaches
    through [?.] or [||] are optional here; [type] is read unguarded. *)

Record CrossrefAuthor : Type := mkAuthor {
  given : option string;
  family : option string
}.

Record Reference : Type := mkReference {
  ref_title : option (list string);
  ref_author : option (list CrossrefAuthor);
  ref_created : option string;        (* created?.['date-time'] *)
  ref_publisher : option string;
  ref_DOI : option string;
  ref_ISBN : option (list string);
  ref_URL : option string;
  ref_resource : option string;       (* resource?.primary?.URL *)
  ref_abstract : option string;
  ref_type : string;
  ref_language : option string
}.

Section Adapters.

(** [new Date(s).getFullYear()], which is the host's. *)
Variable getFullYear : string -> number.

Definition fromCrossref (reference : Reference) : UnifiedCitation :=
  let authors :=
    match ref_author reference with
    | Some l =>
        map (fun author =>
               let given := orElse (given author) "" in
               let family := orElse (family author) "" in
               trim (given ++ " " ++ family)) l
    | None => []
    end in
  let year :=
    whenTruthy (ref_created reference) (fun d => Some (getFullYear d)) None in
  {| title := orElse (match ref_title reference with
                      | Some l => first l
                      | None => None
                      end) "Untitled";
     authors := authors;
     year := year;
     publisher := ref_publisher reference;
     doi := ref_DOI reference;
     isbn := ref_ISBN reference;
     url := if truthy (ref_URL reference) then ref_URL reference
            else ref_resource reference;
     abstract_ := ref_abstract reference;
     type := mapCrossrefType (ref_type reference);
     source := crossref;
     language := ref_language reference |}.

End Adapters.

(** ** The book adapters (sources.ts, lines 76-118; formatter.ts, 130-161)

    Again the fields the adapters read.  The adapters' parameter [book]
    is [item] here, [book] being the citation type. *)

Record IndustryIdentifier : Type := mkIdentifier {
  id_type : string;
  identifier : string
}.

Record GoogleBooksItem : Type := mkGoogleBooksItem {
  gb_title : string;
  gb_authors : option (list string);
  gb_publisher : option string;
  gb_publishedDate : option string;
  gb_description : option string;
  gb_industryIdentifiers : option (list IndustryIdentifier);
  gb_language : option string;
  gb_infoLink : option string
}.

Record OpenLibraryItem : Type := mkOpenLibraryItem {
  ol_key : string;
  ol_title : string;
  ol_author_name : option (list string);
  ol_first_publish_year : option number;
  ol_isbn : option (list string);
  ol_publisher : option (list string);
  ol_language : option (list string)
}.

Section BookAdapters.

Variable getFullYear : string -> number.

Definition fromGoogleBooks (item : GoogleBooksItem) : UnifiedCitation :=
  let isbn :=
    match gb_industryIdentifiers item with
    | Some ids => map (fun id => identifier id) ids
    | None => []
    end in
  let year :=
    whenTruthy (gb_publishedDate item) (fun d => Some (getFullYear d)) None in
  {| title := gb_title item;
     authors := match gb_authors item with Some l => l | None => [] end;
     year := year;
     publisher := gb_publisher item;
     doi := None;
     isbn := Some isbn;
     url := gb_infoLink item;
     abstract_ := gb_description item;
     type := book;
     source := googlebooks;
     language := gb_language item |}.

End BookAdapters.

Definition fromOpenLibrary (item : OpenLibraryItem) : UnifiedCitation :=
  {| title := ol_title item;
     authors := match ol_author_name item with Some l => l | None => [] end;
     year := ol_first_publish_year item;
     publisher := match ol_publisher item with
                  | Some l => first l
                  | None => None
                  end;
     doi := None;
     isbn := ol_isbn item;
     url := Some ("https://openlibrary.org" ++ ol_key item);
     abstract_ := None;
     type := book;
     source := openlibrary;
     language := match ol_language item with
                 | Some l => first l
                 | None => None
                 end |}.

(** ** The renderers (formatter.ts, lines 163-278) *)

Definition italic (t : string) : string := "<i>" ++ t ++ "</i>".
Definition quoted (t : string) : string := dquote ++ t ++ dquote.

Definition toAPA (citation : UnifiedCitation) : string :=
  let authors := formatAuthorsAPA (authors citation) in
  let year :=
    whenTruthy (year citation)
      (fun y => "(" ++ numberToString y ++ ")") "(n.d.)" in
  let title :=
    if isBook (type citation) then italic (title citation)
    else title citation in
  let result := authors ++ " " ++ year ++ ". " ++ title ++ "." in
  let result :=
    whenTruthy (publisher citation)
      (fun p => result ++ " " ++ p ++ ".") result in
  let result :=
    whenTruthy (doi citation)
      (fun d => result ++ " https://doi.org/" ++ d)
      (whenTruthy (url citation) (fun u => result ++ " " ++ u) result) in
  result.

Definition toMLA (citation : UnifiedCitation) : string :=
  let authors := formatAuthorsMLA (authors citation) in
  let title :=
    if isBook (type citation) then italic (title citation)
    else quoted (title citation) in
  let result := authors ++ ". " ++ title ++ "." in
  let result :=
    whenTruthy (publisher citation) (fun p => result ++ " " ++ p) result in
  let result :=
    whenTruthy (year citation)
      (fun y => result ++ ", " ++ numberToString y) result in
  let result := result ++ "." in
  let result :=
    whenTruthy (url citation) (fun u => result ++ " " ++ u ++ ".") result in
  result.

Definition toChicago (citation : UnifiedCitation) : string :=
  let authors := formatAuthorsChicago (authors citation) in
  let year := whenTruthy (year citation) numberToString "n.d." in
  let title :=
    if isBook (type citation) then italic (title citation)
    else quoted (title citation) in
  let result := authors ++ ". " ++ year ++ ". " ++ title ++ "." in
  let result :=
    whenTruthy (publisher citation)
      (fun p => result ++ " " ++ p ++ ".") result in
  let result :=
    whenTruthy (doi citation)
      (fun d => result ++ " https://doi.org/" ++ d ++ ".")
      (whenTruthy (url citation) (fun u => result ++ " " ++ u ++ ".") result) in
  result.

Definition toHarvard (citation : UnifiedCitation) : string :=
  let authors := formatAuthorsHarvard (authors citation) in
  let year := whenTruthy (year citation) numberToString "n.d." in
  let title :=
    if isBook (type citation) then italic (title citation)
    else title citation in
  let result := authors ++ " (" ++ year ++ ") " ++ title ++ "." in
  let result :=
    whenTruthy (publisher citation)
      (fun p => result ++ " " ++ p ++ ".") result in
  let result :=
    whenTruthy (url citation)
      (fun u => result ++ " Available at: " ++ u) result in
  result.

Definition toBibTeX (citation : UnifiedCitation) : string :=
  let key := generateBibTeXKey citation in
  let type := if isBook (type citation) then "book" else "article" in
  let bibtex := "@" ++ type ++ "{" ++ key ++ "," ++ newline in
  let bibtex := bibtex ++ "  title={" ++ title citation ++ "}," ++ newline in
  let bibtex :=
    match authors citation with
    | [] => bibtex
    | _ :: _ =>
        let authors := join " and " (authors citation) in
        bibtex ++ "  author={" ++ authors ++ "}," ++ newline
    end in
  let bibtex :=
    whenTruthy (year citation)
      (fun y => bibtex ++ "  year={" ++ numberToString y ++ "}," ++ newline)
      bibtex in
  let bibtex :=
    whenTruthy (publisher citation)
      (fun p => bibtex ++ "  publisher={" ++ p ++ "}," ++ newline) bibtex in
  let bibtex :=
    whenTruthy (doi citation)
      (fun d => bibtex ++ "  doi={" ++ d ++ "}," ++ newline) bibtex in
  let bibtex :=
    match isbn citation with
    | Some (i :: _) => bibtex ++ "  isbn={" ++ i ++ "}," ++ newline
    | _ => bibtex
    end in
  let bibtex :=
    whenTruthy (url citation)
      (fun u => bibtex ++ "  url={" ++ u ++ "}," ++ newline) bibtex in
  bibtex ++ "}".

(** ** Field updates, to compare two citations that differ in one field *)

Definition withYear (y : option number) (c : UnifiedCitation) : UnifiedCitation :=
  mkCitation (title c) (authors c) y (publisher c) (doi c) (isbn c) (url c)
             (abstract_ c) (type c) (source c) (language c).

Definition withDoi (d : option string) (c : UnifiedCitation) : UnifiedCitation :=
  mkCitation (title c) (authors c) (year c) (publisher c) d (isbn c) (url c)
             (abstract_ c) (type c) (source c) (language c).

Definition withUrl (u : option string) (c : UnifiedCitation) : UnifiedCitation :=
  mkCitation (title c) (authors c) (year c) (publisher c) (doi c) (isbn c) u
             (abstract_ c) (type c) (source c) (language c).

Definition withPublisher (p : option string) (c : UnifiedCitation) : UnifiedCitation :=
  mkCitation (title c) (authors c) (year c) p (doi c) (isbn c) (url c)
             (abstract_ c) (type c) (source c) (language c).

(** ** Predicates used in the statements *)

(** [sub] occurs in [s]. *)
Definition Occurs (sub s : string) : Prop :=
  exists pre post, s = pre ++ sub ++ post.

(** No character of [s] is the space character. *)
Fixpoint noSpace (s : string) : bool :=
  match s with
  | EmptyString => true
  | String c r => negb (Ascii.eqb c space) && noSpace r
  end.

(** The title as a renderer marks it up: italic for a book; otherwise
    plain (APA, Harvard) or quoted (MLA, Chicago). *)
Definition titleMarkup (plain : bool) (c : UnifiedCitation) : string :=
  if isBook (type c) then italic (title c)
  else if plain then title c else quoted (title c).

(** ** The specification's wording, where it differs from the code *)

(** Type classification by substring checks on the source type string
    itself. *)
Definition mapCrossrefType_spec (ty : string) : CitationType :=
  if includes ty "book" then book
  else if includes ty "journal" || includes ty "article" then article
  else if includes ty "proceedings" || includes ty "paper" then paper
  else unknown.

(** Splitting on whitespace: the maximal runs of non-whitespace
    characters. [cur] is the token being read. *)
Fixpoint tokensFrom (cur s : string) : list string :=
  match s with
  | EmptyString => if cur =? "" then [] else [cur]
  | String c r =>
      if isWhiteSpace c
      then (if cur =? "" then tokensFrom "" r else cur :: tokensFrom "" r)
      else tokensFrom (cur ++ String c EmptyString) r
  end.

Definition tokens (s : string) : list string := tokensFrom "" s.

(** The name-formatting primitive as the specification words it: one
    token, the name unchanged; otherwise the last token, a comma, and the
    preceding tokens joined by single spaces. *)
Definition formatAuthorLastFirst_spec (name : string) : string :=
  match tokens name with
  | [_] => name
  | ts => last ts "" ++ ", " ++ join " " (removelast ts)
  end.

(** A field is present when it is defined, whatever its value. *)
Definition whenPresent {A B} (o : option A) (f : A -> B) (d : B) : B :=
  match o with
  | Some a => f a
  | None => d
  end.

(** MLA assembly with publisher, year and URL emitted whenever present. *)
Definition toMLA_spec (citation : UnifiedCitation) : string :=
  formatAuthorsMLA (authors citation) ++ ". "
  ++ (if isBook (type citation) then italic (title citation)
      else quoted (title citation)) ++ "."
  ++ whenPresent (publisher citation) (fun p => " " ++ p) ""
  ++ whenPresent (year citation) (fun y => ", " ++ numberToString y) ""
  ++ "."
  ++ whenPresent (url citation) (fun u => " " ++ u ++ ".") "".

(** Harvard's URL suffix, emitted whenever the URL is present. *)
Definition toHarvard_spec (citation : UnifiedCitation) : string :=
  toHarvard (withUrl None citation)
  ++ whenPresent (url citation) (fun u => " Available at: " ++ u) "".

(** ** Sample records *)

(** A date parser for the samples, none of which has a creation date. *)
Definition noDate : string -> number := fun _ => NaN.

Definition sampleReference (ty : string) : Reference :=
  mkReference (Some ["Deep Learning Fundamentals"])
              (Some [mkAuthor (Some "John") (Some "Smith")])
              None (Some "MIT Press") None None None None None ty None.

(** The citation of the test "toBibTeX - formats book entry correctly". *)
Definition cormen (src : CitationSource) (abs lang : option string)
  : UnifiedCitation :=
  mkCitation "Introduction to Algorithms"
             ["Thomas H. Cormen"; "Charles E. Leiserson"]
             (Some (Int 2009)) (Some "MIT Press") None
             (Some ["9780262033848"]) None abs book src lang.

(** The citations of formatter.test.ts set these fields only. *)
Definition testCitation (t : string) (auths : list string) (y : option Z)
  (p d u : option string) (ty : CitationType) (src : CitationSource)
  : UnifiedCitation :=
  mkCitation t auths (option_map Int y) p d None u None ty src None.

Definition sampleCitation (auths : list string) (y : option number)
  (u : option string) (ty : CitationType) : UnifiedCitation :=
  mkCitation "Research Paper" auths y (Some "MIT Press") None None u None
             ty crossref None.

Definition withIsbn (i : option (list string)) (c : UnifiedCitation) : UnifiedCitation :=
  mkCitation (title c) (authors c) (year c) (publisher c) (doi c) i (url c)
             (abstract_ c) (type c) (source c) (language c).

(** ** The retrieval client (sources.ts, lines 130-275)

    [GetReference] awaits one request after the other, so a run is a
    sequence of steps over a trace: the requests sent so far, in order,
    and the warnings written to the console.  A computation returns a
    value or throws. *)

Module GetReference.

(** The message of a thrown [Error], or the reason of a rejected
    [fetch] or [json()]. *)
Definition exn : Type := string.

(** A [URL] under construction: its base and the search parameters
    appended so far, in order. *)
Record Request : Type := mkRequest {
  base : string;
  searchParams : list (string * string)
}.

Definition appendParam (name value : string) (u : Request) : Request :=
  mkRequest (base u) (searchParams u ++ [(name, value)]).

Record Trace : Type := mkTrace {
  requests : list Request;
  warnings : list (string * exn)
}.

Definition M (A : Type) : Type := Trace -> (exn + A) * Trace.

Definition ret {A} (a : A) : M A := fun t => (inr a, t).

Definition throw {A} (e : exn) : M A := fun t => (inl e, t).

Definition bind {A B} (m : M A) (k : A -> M B) : M B :=
  fun t =>
    match m t with
    | (inr a, t') => k a t'
    | (inl e, t') => (inl e, t')
    end.

(** [try { m } catch (error) { handler(error) }]. *)
Definition tryCatch {A} (m : M A) (handler : exn -> M A) : M A :=
  fun t =>
    match m t with
    | (inr a, t') => (inr a, t')
    | (inl e, t') => handler e t'
    end.

(** [console.warn(label, error)]. *)
Definition warn (label : string) (e : exn) : M unit :=
  fun t => (inr tt, mkTrace (requests t) (warnings t ++ [(label, e)])).

(** [await fetch(url.toString())] followed by [await req.json()]: the
    request is recorded, and the service answers it, given the requests
    that came before, with a parsed body or a rejection. *)
Definition fetchJson {R} (api : list Request -> Request -> exn + R)
  (u : Request) : M R :=
  fun t => (api (requests t) u, mkTrace (requests t ++ [u]) (warnings t)).

Notation "x <- m ;; k" := (bind m (fun x => k))
  (at level 61, m at next level, right associativity).

(** The response bodies, through the fields the client tests. *)
Record Message : Type := mkMessage {
  items : option (list Reference)
}.

Record ReferencesSearchResponse : Type := mkReferencesSearchResponse {
  message : option Message
}.

Record GoogleBooksResponse : Type := mkGoogleBooksResponse {
  gb_items : option (list GoogleBooksItem)
}.

Record OpenLibraryResponse : Type := mkOpenLibraryResponse {
  docs : option (list OpenLibraryItem)
}.

Record PaginationOptions : Type := mkPaginationOptions {
  rows : option number;
  offset : option number
}.

Record GoogleBooksPaginationOptions : Type := mkGoogleBooksPaginationOptions {
  maxResults : option number;
  startIndex : option number
}.

Record OpenLibraryPaginationOptions : Type := mkOpenLibraryPaginationOptions {
  limit : option number;
  ol_offset : option number
}.

(** The [options] of [fromTitleAllSources] and its result. *)
Record AllOptions : Type := mkAllOptions {
  opt_crossref : option PaginationOptions;
  opt_googleBooks : option GoogleBooksPaginationOptions;
  opt_openLibrary : option OpenLibraryPaginationOptions
}.

Record AllResults : Type := mkAllResults {
  res_crossref : option ReferencesSearchResponse;
  res_googleBooks : option GoogleBooksResponse;
  res_openLibrary : option OpenLibraryResponse
}.

Definition crossrefURL : string := "https://api.crossref.org/works".
Definition googleBooksURL : string :=
  "https://www.googleapis.com/books/v1/volumes".
Definition openLibraryURL : string := "https://openlibrary.org/search.json".

(** [if (options?.field !== undefined) url.searchParams.append(name,
    options.field.toString())]. *)
Definition appendWhenDefined {O} (options : option O)
  (field : O -> option number) (name : string) (u : Request) : Request :=
  match options with
  | Some o =>
      match field o with
      | Some n => appendParam name (numberToString n) u
      | None => u
      end
  | None => u
  end.

(** [!xs || xs.length === 0]. *)
Definition noneOrEmpty {A} (xs : option (list A)) : bool :=
  match xs with
  | Some (_ :: _) => false
  | _ => true
  end.

Section Services.

(** The three services behind [fetch]. *)
Variable crossrefApi : list Request -> Request -> exn + ReferencesSearchResponse.
Variable googleBooksApi : list Request -> Request -> exn + GoogleBooksResponse.
Variable openLibraryApi : list Request -> Request -> exn + OpenLibraryResponse.

Definition fromTitle (title reqAuthor : string)
  (options : option PaginationOptions) : M ReferencesSearchResponse :=
  if negb (truthy reqAuthor) || (trim reqAuthor =? "")
  then throw "Request author email is required. Be polite to CrossRef API by providing your email and tracking your usage."
  else
    let url := mkRequest crossrefURL [] in
    let url := appendParam "query" title url in
    let url := appendWhenDefined options rows "rows" url in
    let url := appendWhenDefined options offset "offset" url in
    let url := appendParam "mailto" reqAuthor url in
    res <- fetchJson crossrefApi url ;;
    if match message res with
       | Some m => noneOrEmpty (items m)
       | None => true
       end
    then throw "No reference found"
    else ret res.

Definition fromTitleGoogleBooks (title : string)
  (options : option GoogleBooksPaginationOptions) : M GoogleBooksResponse :=
  let url := mkRequest googleBooksURL [] in
  let url := appendParam "q" title url in
  let url := appendWhenDefined options maxResults "maxResults" url in
  let url := appendWhenDefined options startIndex "startIndex" url in
  res <- fetchJson googleBooksApi url ;;
  if noneOrEmpty (gb_items res) then throw "No books found"
  else ret res.

Definition fromTitleOpenLibrary (title : string)
  (options : option OpenLibraryPaginationOptions) : M OpenLibraryResponse :=
  let url := mkRequest openLibraryURL [] in
  let url := appendParam "title" title url in
  let url := appendWhenDefined options limit "limit" url in
  let url := appendWhenDefined options ol_offset "offset" url in
  res <- fetchJson openLibraryApi url ;;
  if noneOrEmpty (docs res) then throw "No books found in Open Library"
  else ret res.

(** One [try]/[catch] block of [fromTitleAllSources]: the result of the
    search, or a warning and [undefined]. *)
Definition attempt {A} (label : string) (m : M A) : M (option A) :=
  tryCatch (a <- m ;; ret (Some a))
           (fun error => _ <- warn label error ;; ret None).

Definition fromTitleAllSources (title reqAuthor : string)
  (options : option AllOptions) : M AllResults :=
  c <- attempt "Crossref search failed:"
         (fromTitle title reqAuthor
            (match options with Some opts => opt_crossref opts | None => None end)) ;;
  g <- attempt "Google Books search failed:"
         (fromTitleGoogleBooks title
            (match options with Some opts => opt_googleBooks opts | None => None end)) ;;
  o <- attempt "Open Library search failed:"
         (fromTitleOpenLibrary title
            (match options with Some opts => opt_openLibrary opts | None => None end)) ;;
  let results := mkAllResults c g o in
  match c, g, o with
  | None, None, None => throw "No results found from any source"
  | _, _, _ => ret results
  end.

End Services.

(** A run starts with nothing sent and nothing logged. *)
Definition start : Trace := mkTrace [] [].

End GetReference.

(** Services for the samples: Crossref is unreachable, Google Books
    finds nothing, Open Library finds one book. *)
Definition downApi : list GetReference.Request -> GetReference.Request ->
                     GetReference.exn + GetReference.ReferencesSearchResponse :=
  fun _ _ => inl "network error".

Definition emptyBooksApi : list GetReference.Request -> GetReference.Request ->
                           GetReference.exn + GetReference.GoogleBooksResponse :=
  fun _ _ => inr (GetReference.mkGoogleBooksResponse (Some [])).

Definition sampleOpenLibraryItem : OpenLibraryItem :=
  mkOpenLibraryItem "/works/OL12345W" "The Pragmatic Programmer"
    (Some ["Andrew Hunt"; "David Thomas"]) (Some (Int 1999))
    (Some ["9780135957059"; "0135957052"]) (Some ["Addison-Wesley"])
    (Some ["eng"]).

Definition oneBookApi : list GetReference.Request -> GetReference.Request ->
                        GetReference.exn + GetReference.OpenLibraryResponse :=
  fun _ _ => inr (GetReference.mkOpenLibraryResponse
                    (Some [sampleOpenLibraryItem])).

Definition oneReferenceApi : list GetReference.Request -> GetReference.Request ->
                             GetReference.exn + GetReference.ReferencesSearchResponse :=
  fun _ _ => inr (GetReference.mkReferencesSearchResponse
                    (Some (GetReference.mkMessage
                             (Some [sampleReference "journal-article"])))).

Definition sampleGoogleBooksItem : GoogleBooksItem :=
  mkGoogleBooksItem "Introduction to Algorithms"
    (Some ["Thomas H. Cormen"; "Charles E. Leiserson"]) (Some "MIT Press")
    (Some "2009-07-31") (Some "A comprehensive textbook covering algorithms.")
    (Some [mkIdentifier "ISBN_13" "9780262033848";
           mkIdentifier "ISBN_10" "0262033844"])
    (Some "en") (Some "https://books.google.com/books?id=abc123").

(** ** Further predicates used in the statements *)



(** [s] ends with [suf]. *)
Definition EndsWith (suf s : string) : Prop :=
  exists pre, s = pre ++ suf.

(** The search parameter a defined pagination field contributes. *)
Definition optParam (name : string) (o : option number)
  : list (string * string) :=
  match o with
  | Some n => [(name, numberToString n)]
  | None => []
  end.

(** A field of the optional [options] argument. *)
Definition optField {O A} (options : option O) (field : O -> option A)
  : option A :=
  match options with
  | Some o => field o
  | None => None
  end.

(** A Crossref reference created at [d], and a Google Books item
    published at [d]. *)
Definition datedReference (d : string) : Reference :=
  mkReference (Some ["Deep Learning Fundamentals"])
              (Some [mkAuthor (Some "John") (Some "Smith");
                     mkAuthor None (Some "Doe");
                     mkAuthor (Some "Jane") None])
              (Some d) (Some "MIT Press") None None (Some "")
              (Some "https://example.com/article") None "journal-article"
              None.

Definition datedBook (d : string) : GoogleBooksItem :=
  mkGoogleBooksItem "Introduction to Algorithms" None None (Some d) None
                    None None None.

(** The requests the three searches send. *)
Definition crossrefRequest (title reqAuthor : string)
  (options : option GetReference.PaginationOptions) : GetReference.Request :=
  GetReference.mkRequest GetReference.crossrefURL
    ([("query", title)]
     ++ optParam "rows" (optField options GetReference.rows)
     ++ optParam "offset" (optField options GetReference.offset)
     ++ [("mailto", reqAuthor)]).

Definition googleBooksRequest (title : string)
  (options : option GetReference.GoogleBooksPaginationOptions)
  : GetReference.Request :=
  GetReference.mkRequest GetReference.googleBooksURL
    ([("q", title)]
     ++ optParam "maxResults" (optField options GetReference.maxResults)
     ++ optParam "startIndex" (optField options GetReference.startIndex)).

Definition openLibraryRequest (title : string)
  (options : option GetReference.OpenLibraryPaginationOptions)
  : GetReference.Request :=
  GetReference.mkRequest GetReference.openLibraryURL
    ([("title", title)]
     ++ optParam "limit" (optField options GetReference.limit)
     ++ optParam "offset" (optField options GetReference.ol_offset)).

(** A response body with at least one result. *)
Definition hasReferences (res : GetReference.ReferencesSearchResponse) : Prop :=
  exists m r rs, GetReference.message res = Some m /\
                 GetReference.items m = Some (r :: rs).

Definition hasBooks (res : GetReference.GoogleBooksResponse) : Prop :=
  exists b bs, GetReference.gb_items res = Some (b :: bs).

Definition hasDocs (res : GetReference.OpenLibraryResponse) : Prop :=
  exists d ds, GetReference.docs res = Some (d :: ds).

(** The error messages of the client. *)
Definition politeError : string :=
  "Request author email is required. Be polite to CrossRef API by providing your email and tracking your usage.".

(** One for a source that gave nothing. *)
Definition absent {A} (o : option A) : nat :=
  match o with Some _ => 0 | None => 1 end.

(** ** Tactics *)

(** Case analysis on every optional field under a truthiness test. *)
Ltac split_fields :=
  unfold whenTruthy;
  repeat match goal with
    | |- context [match ?o with Some _ => _ | None => _ end] => destruct o
    | |- context [if truthy ?a then _ else _] => destruct (truthy a)
    end.

Ltac closed_form := split_fields; autorewrite with str; reflexivity.

(** * Properties *)

(** ** The repository's tests (formatter.test.ts), run on the embedding *)

Example test_primitives :
  split space "a b" = ["a"; "b"] /\
  split space " a  b " = [""; "a"; ""; "b"; ""] /\
  split space "" = [""] /\
  trim "  a b  " = "a b" /\
  toLowerCase "Book-Chapter" = "book-chapter" /\
  includes "proceedings-article" "article" = true /\
  includes "ab" "abc" = false /\
  numberToString (Int 2009) = "2009".
Proof. repeat split. Qed.

Example test_fromCrossref :
  authors (fromCrossref noDate
             (mkReference (Some ["Deep Learning Fundamentals"])
                (Some [mkAuthor (Some "John") (Some "Smith");
                       mkAuthor (Some "Jane") (Some "Doe")])
                None (Some "MIT Press") (Some "10.1162/neco_a_01199") None
                (Some "https://example.com/article") None None
                "journal-article" (Some "en")))
  = ["John Smith"; "Jane Doe"] /\
  type (fromCrossref noDate (sampleReference "journal-article")) = article /\
  type (fromCrossref noDate (sampleReference "book")) = book /\
  title (fromCrossref noDate
           (mkReference (Some []) None None None None None None None None
              "journal-article" None)) = "Untitled".
Proof. repeat split. Qed.

Example test_toAPA :
  toAPA (testCitation "Introduction to Algorithms"
           ["Thomas H. Cormen"; "Charles E. Leiserson"] (Some 2009%Z)
           (Some "MIT Press") None None book googlebooks)
  = "Cormen, Thomas H. & Leiserson, Charles E. (2009). <i>Introduction to Algorithms</i>. MIT Press." /\
  toAPA (testCitation "Deep Learning Fundamentals" ["John Smith"]
           (Some 2023%Z) (Some "MIT Press") (Some "10.1162/neco_a_01199")
           None article crossref)
  = "Smith, John (2023). Deep Learning Fundamentals. MIT Press. https://doi.org/10.1162/neco_a_01199" /\
  toAPA (testCitation "Research Paper"
           ["Alice Johnson"; "Bob Williams"; "Carol Davis"] (Some 2022%Z)
           None None None article crossref)
  = "Johnson, Alice, Williams, Bob, & Davis, Carol (2022). Research Paper." /\
  toAPA (testCitation "Undated Work" ["John Doe"] None None None None
           book openlibrary)
  = "Doe, John (n.d.). <i>Undated Work</i>." /\
  toAPA (testCitation "Single Name Work" ["Madonna"] (Some 2020%Z) None
           None None book openlibrary)
  = "Madonna (2020). <i>Single Name Work</i>.".
Proof. repeat split. Qed.

Example test_toMLA :
  toMLA (testCitation "Introduction to Algorithms"
           ["Thomas H. Cormen"; "Charles E. Leiserson"] (Some 2009%Z)
           (Some "MIT Press") None None book googlebooks)
  = "Cormen, Thomas H., and Charles E. Leiserson. <i>Introduction to Algorithms</i>. MIT Press, 2009." /\
  toMLA (testCitation "Deep Learning Fundamentals" ["John Smith"]
           (Some 2023%Z) None None None article crossref)
  = "Smith, John. " ++ dquote ++ "Deep Learning Fundamentals" ++ dquote
    ++ "., 2023." /\
  toMLA (testCitation "Research Paper"
           ["Alice Johnson"; "Bob Williams"; "Carol Davis"] (Some 2022%Z)
           None None None article crossref)
  = "Johnson, Alice, et al. " ++ dquote ++ "Research Paper" ++ dquote
    ++ "., 2022.".
Proof. repeat split. Qed.

Example test_toChicago_toHarvard :
  toChicago (testCitation "Introduction to Algorithms"
               ["Thomas H. Cormen"; "Charles E. Leiserson"] (Some 2009%Z)
               (Some "MIT Press") None None book googlebooks)
  = "Cormen, Thomas H. and Charles E. Leiserson. 2009. <i>Introduction to Algorithms</i>. MIT Press." /\
  toChicago (testCitation "Deep Learning" ["John Smith"] (Some 2023%Z) None
               (Some "10.1162/neco_a_01199") None article crossref)
  = "Smith, John. 2023. " ++ dquote ++ "Deep Learning" ++ dquote
    ++ ". https://doi.org/10.1162/neco_a_01199." /\
  toHarvard (testCitation "Research Paper"
               ["Alice Johnson"; "Bob Williams"; "Carol Davis"]
               (Some 2022%Z) None None None article crossref)
  = "Johnson, Alice et al. (2022) Research Paper." /\
  toHarvard (testCitation "Web Article" ["John Doe"] (Some 2023%Z) None None
               (Some "https://example.com/article") article crossref)
  = "Doe, John (2023) Web Article. Available at: https://example.com/article".
Proof. repeat split. Qed.

Example test_toBibTeX :
  toBibTeX (testCitation "Undated Work" ["John Doe"] None None None None
              book openlibrary)
  = "@book{doenodateundated," ++ newline
    ++ "  title={Undated Work}," ++ newline
    ++ "  author={John Doe}," ++ newline ++ "}" /\
  toBibTeX (testCitation "Online Resource" ["Jane Smith"] (Some 2023%Z) None
              None (Some "https://example.com/resource") article crossref)
  = "@article{smith2023online," ++ newline
    ++ "  title={Online Resource}," ++ newline
    ++ "  author={Jane Smith}," ++ newline
    ++ "  year={2023}," ++ newline
    ++ "  url={https://example.com/resource}," ++ newline ++ "}".
Proof. repeat split. Qed.

(** ** Strings *)

Section StringFacts.

Lemma append_assoc (a b c : string) : (a ++ b) ++ c = a ++ (b ++ c).
Proof.
  induction a as [|x a IH]; simpl; [reflexivity|].
  now rewrite IH.
Qed.

Lemma append_empty_r (a : string) : a ++ "" = a.
Proof.
  induction a as [|x a IH]; simpl; congruence.
Qed.

Lemma prefix_refl_app (p rest : string) : prefix p (p ++ rest) = true.
Proof.
  induction p as [|x p IH]; simpl.
  - now destruct rest.
  - destruct (ascii_dec x x) as [_|ne]; [exact IH | now elim ne].
Qed.

Lemma prefix_intro (p rest s : string) : s = p ++ rest -> prefix p s = true.
Proof.
  intros ->. apply prefix_refl_app.
Qed.

Lemma prefix_elim (p s : string) :
  prefix p s = true -> exists rest, s = p ++ rest.
Proof.
  revert s. induction p as [|x p IH]; intros s H.
  - now exists s.
  - destruct s as [|y s]; simpl in H; [discriminate|].
    destruct (ascii_dec x y) as [<-|]; [|discriminate].
    destruct (IH _ H) as [rest ->]. now exists rest.
Qed.

(** [includes] decides occurrence. *)
Lemma includes_Occurs (s sub : string) :
  includes s sub = true <-> Occurs sub s.
Proof.
  split.
  - induction s as [|x s IH]; cbn [includes]; intros H.
    + rewrite orb_false_r in H. apply prefix_elim in H as [rest E].
      now exists "", rest.
    + apply orb_true_iff in H as [H|H].
      * apply prefix_elim in H as [rest E]. now exists "", rest.
      * destruct (IH H) as (pre & post & ->).
        now exists (String x pre), post.
  - intros (pre & post & ->).
    induction pre as [|x pre IH].
    + assert (P : prefix sub (sub ++ post) = true)
        by apply prefix_refl_app.
      cbn [append]. destruct (sub ++ post); cbn [includes]; now rewrite P.
    + cbn [append includes]. rewrite IH. apply orb_true_r.
Qed.

Lemma not_includes_Occurs (s sub : string) :
  includes s sub = false <-> ~ Occurs sub s.
Proof.
  rewrite <- includes_Occurs. now destruct (includes s sub).
Qed.

End StringFacts.

Create Rewrite HintDb str.
#[local] Hint Rewrite append_assoc append_empty_r : str.

(** ** [split] and [join] *)

Section SplitFacts.

Variable sep : ascii.

Lemma split_not_nil (s : string) : split sep s <> [].
Proof.
  destruct s as [|c r]; simpl; [discriminate|].
  destruct (Ascii.eqb c sep); [discriminate|].
  now destruct (split sep r).
Qed.

(** A separator inside a string cuts the list of pieces in two. *)
Lemma split_app (a b : string) :
  split sep (a ++ String sep b) = (split sep a ++ split sep b)%list.
Proof.
  induction a as [|c a IH]; simpl.
  - now rewrite Ascii.eqb_refl.
  - destruct (Ascii.eqb c sep); rewrite IH; [reflexivity|].
    pose proof (split_not_nil a) as Hne.
    destruct (split sep a); [now elim Hne | reflexivity].
Qed.

Lemma join_cons (d x : string) (xs : list string) :
  xs <> [] -> join d (x :: xs) = x ++ d ++ join d xs.
Proof.
  destruct xs; [now intros E; elim E | reflexivity].
Qed.

(** Joining the pieces with the separator gives the string back. *)
Lemma join_split (s : string) :
  join (String sep "") (split sep s) = s.
Proof.
  induction s as [|c r IH]; cbn [split]; [reflexivity|].
  pose proof (split_not_nil r) as Hne.
  destruct (Ascii.eqb_spec c sep) as [->|ne].
  - rewrite join_cons, IH by assumption. reflexivity.
  - destruct (split sep r) as [|p ps]; [now elim Hne|].
    destruct ps as [|q ps].
    + cbn in IH |- *. now rewrite IH.
    + rewrite join_cons in IH |- * by discriminate.
      cbn [append] in IH |- *. now rewrite IH.
Qed.

End SplitFacts.

Lemma split_noSpace (s : string) :
  noSpace s = true -> split space s = [s].
Proof.
  induction s as [|c r IH]; simpl; [reflexivity|].
  intros H. apply andb_true_iff in H as [Hc Hr].
  apply negb_true_iff in Hc. rewrite Hc, (IH Hr). reflexivity.
Qed.

(** A string has no space, or a last one. *)
Lemma last_space (s : string) :
  noSpace s = true \/
  exists given family, s = given ++ " " ++ family /\ noSpace family = true.
Proof.
  induction s as [|c r [IH|(g & f & -> & Hf)]].
  - now left.
  - cbn [noSpace]. destruct (Ascii.eqb_spec c space) as [->|ne].
    + right. now exists "", r.
    + left. exact IH.
  - right. now exists (String c g), f.
Qed.

(** ** [formatAuthorLastFirst] *)

Lemma formatAuthorLastFirst_single (name : string) :
  noSpace (trim name) = true -> formatAuthorLastFirst name = trim name.
Proof.
  intros H. unfold formatAuthorLastFirst.
  now rewrite (split_noSpace _ H).
Qed.

Lemma formatAuthorLastFirst_swap (name given family : string) :
  trim name = given ++ " " ++ family ->
  noSpace family = true ->
  formatAuthorLastFirst name = family ++ ", " ++ given.
Proof.
  intros Ht Hf. unfold formatAuthorLastFirst, sliceInit.
  rewrite Ht. change (" " ++ family) with (String space family).
  rewrite split_app, (split_noSpace _ Hf).
  pose proof (split_not_nil space given) as Hne.
  pose proof (join_split space given) as Hj.
  rewrite removelast_last, last_last.
  change (String space "") with " " in Hj. rewrite Hj.
  destruct (split space given) as [|g [|g2 gs]]; [now elim Hne| |];
    reflexivity.
Qed.

(** ** Author lists *)

Lemma formatAuthorsChicago_many (init : list string) (lastA : string) :
  2 <= List.length init ->
  formatAuthorsChicago (init ++ [lastA]) =
  join ", " (map formatAuthorLastFirst init) ++ ", and " ++ lastA.
Proof.
  intros Hlen.
  destruct init as [|a [|b init]]; simpl in Hlen; try lia.
  assert (E : formatAuthorsChicago ((a :: b :: init) ++ [lastA]) =
              join ", " (map formatAuthorLastFirst
                           (sliceInit ((a :: b :: init) ++ [lastA])))
              ++ ", and " ++ last ((a :: b :: init) ++ [lastA]) "").
  { cbn [app]. destruct (init ++ [lastA])%list eqn:E.
    - destruct init; discriminate.
    - reflexivity. }
  rewrite E. unfold sliceInit. now rewrite removelast_last, last_last.
Qed.

(** ** Closed forms of the renderers

    Each renderer builds its result by appending to an accumulator; the
    closed form lists the segments in order. *)

Lemma toAPA_closed (c : UnifiedCitation) :
  toAPA c =
  formatAuthorsAPA (authors c) ++ " "
  ++ whenTruthy (year c) (fun y => "(" ++ numberToString y ++ ")") "(n.d.)"
  ++ ". " ++ titleMarkup true c ++ "."
  ++ whenTruthy (publisher c) (fun p => " " ++ p ++ ".") ""
  ++ whenTruthy (doi c) (fun d => " https://doi.org/" ++ d)
       (whenTruthy (url c) (fun u => " " ++ u) "").
Proof.
  unfold toAPA, titleMarkup. closed_form.
Qed.

Lemma toMLA_closed (c : UnifiedCitation) :
  toMLA c =
  formatAuthorsMLA (authors c) ++ ". " ++ titleMarkup false c ++ "."
  ++ whenTruthy (publisher c) (fun p => " " ++ p) ""
  ++ whenTruthy (year c) (fun y => ", " ++ numberToString y) ""
  ++ "."
  ++ whenTruthy (url c) (fun u => " " ++ u ++ ".") "".
Proof.
  unfold toMLA, titleMarkup. closed_form.
Qed.

Lemma toChicago_closed (c : UnifiedCitation) :
  toChicago c =
  formatAuthorsChicago (authors c) ++ ". "
  ++ whenTruthy (year c) numberToString "n.d."
  ++ ". " ++ titleMarkup false c ++ "."
  ++ whenTruthy (publisher c) (fun p => " " ++ p ++ ".") ""
  ++ whenTruthy (doi c) (fun d => " https://doi.org/" ++ d ++ ".")
       (whenTruthy (url c) (fun u => " " ++ u ++ ".") "").
Proof.
  unfold toChicago, titleMarkup. closed_form.
Qed.

Lemma toHarvard_closed (c : UnifiedCitation) :
  toHarvard c =
  formatAuthorsHarvard (authors c) ++ " ("
  ++ whenTruthy (year c) numberToString "n.d."
  ++ ") " ++ titleMarkup true c ++ "."
  ++ whenTruthy (publisher c) (fun p => " " ++ p ++ ".") ""
  ++ whenTruthy (url c) (fun u => " Available at: " ++ u) "".
Proof.
  unfold toHarvard, titleMarkup. closed_form.
Qed.

Lemma toBibTeX_closed (c : UnifiedCitation) :
  toBibTeX c =
  "@" ++ (if isBook (type c) then "book" else "article") ++ "{"
  ++ generateBibTeXKey c ++ "," ++ newline
  ++ "  title={" ++ title c ++ "}," ++ newline
  ++ match authors c with
     | [] => ""
     | _ :: _ => "  author={" ++ join " and " (authors c) ++ "}," ++ newline
     end
  ++ whenTruthy (year c)
       (fun y => "  year={" ++ numberToString y ++ "}," ++ newline) ""
  ++ whenTruthy (publisher c)
       (fun p => "  publisher={" ++ p ++ "}," ++ newline) ""
  ++ whenTruthy (doi c) (fun d => "  doi={" ++ d ++ "}," ++ newline) ""
  ++ match isbn c with
     | Some (i :: _) => "  isbn={" ++ i ++ "}," ++ newline
     | _ => ""
     end
  ++ whenTruthy (url c) (fun u => "  url={" ++ u ++ "}," ++ newline) ""
  ++ "}".
Proof.
  unfold toBibTeX.
  destruct (authors c); destruct (isbn c) as [[|i l']|]; closed_form.
Qed.

(** Cancelling a common front segment in a prefix test. *)
Lemma prefix_cancel (a p s : string) :
  prefix p s = true -> prefix (a ++ p) (a ++ s) = true.
Proof.
  intros H. apply prefix_elim in H as [rest ->].
  rewrite <- append_assoc. apply prefix_refl_app.
Qed.

(** A string that visibly begins with the wanted literal. *)
Ltac starts_with := eapply prefix_intro; cbn [append]; reflexivity.

(** Every renderer opens with its author segment and separator. *)
Lemma toMLA_opens (c : UnifiedCitation) :
  prefix (formatAuthorsMLA (authors c) ++ ". ") (toMLA c) = true.
Proof.
  rewrite toMLA_closed. apply prefix_cancel. starts_with.
Qed.

Lemma toChicago_opens (c : UnifiedCitation) :
  prefix (formatAuthorsChicago (authors c) ++ ". ") (toChicago c) = true.
Proof.
  rewrite toChicago_closed. apply prefix_cancel. starts_with.
Qed.

Lemma toAPA_opens (c : UnifiedCitation) :
  prefix (formatAuthorsAPA (authors c) ++ " (") (toAPA c) = true.
Proof.
  rewrite toAPA_closed. apply prefix_cancel. split_fields; starts_with.
Qed.

Lemma toHarvard_opens (c : UnifiedCitation) :
  prefix (formatAuthorsHarvard (authors c) ++ " (") (toHarvard c) = true.
Proof.
  rewrite toHarvard_closed. apply prefix_cancel. starts_with.
Qed.

Lemma whenTruthy_falsy {A B} `{Truthy A} (o : option A) (f : A -> B) (d : B) :
  truthy o = false -> whenTruthy o f d = d.
Proof.
  destruct o as [a|]; cbn; [|reflexivity].
  now intros ->.
Qed.

Lemma whenTruthy_truthy {A B} `{Truthy A} (a : A) (f : A -> B) (d : B) :
  truthy a = true -> whenTruthy (Some a) f d = f a.
Proof.
  cbn. now intros ->.
Qed.

(** A falsy year renders as an absent one. *)
Lemma falsy_year_absent (c : UnifiedCitation) :
  truthy (year c) = false ->
  toAPA c = toAPA (withYear None c) /\
  toMLA c = toMLA (withYear None c) /\
  toChicago c = toChicago (withYear None c) /\
  toHarvard c = toHarvard (withYear None c) /\
  toBibTeX c = toBibTeX (withYear None c).
Proof.
  intros H.
  rewrite !toAPA_closed, !toMLA_closed, !toChicago_closed,
    !toHarvard_closed, !toBibTeX_closed.
  unfold titleMarkup, generateBibTeXKey, keyAuthor, keyYear, keyTitleWord.
  cbn [withYear year title authors publisher doi isbn url type].
  rewrite !(whenTruthy_falsy (year c)) by exact H.
  repeat split.
Qed.

(** With no truthy year, the placeholder stands in the year position. *)
Lemma falsy_year_placeholder (c : UnifiedCitation) :
  truthy (year c) = false ->
  prefix (formatAuthorsAPA (authors c) ++ " (n.d.). ") (toAPA c) = true /\
  prefix (formatAuthorsChicago (authors c) ++ ". n.d.. ") (toChicago c) = true /\
  prefix (formatAuthorsHarvard (authors c) ++ " (n.d.) ") (toHarvard c) = true.
Proof.
  intros H.
  rewrite toAPA_closed, toChicago_closed, toHarvard_closed.
  rewrite !(whenTruthy_falsy (year c)) by exact H.
  repeat split; apply prefix_cancel; starts_with.
Qed.

(** * The claims *)

(** ** C1: classification of Crossref types *)

(** C1, on the code: [fromCrossref] classifies by substring checks on the
    LOWER-CASED type string, in the priority order book; journal or
    article; proceedings or paper; unknown.  A reference of type
    "proceedings-article" gets type article. *)
Theorem C1_fromCrossref_type (getFullYear : string -> number) (r : Reference) :
  let lower := toLowerCase (ref_type r) in
  let ty := type (fromCrossref getFullYear r) in
  (ty = book <-> Occurs "book" lower) /\
  (ty = article <->
     ~ Occurs "book" lower /\
     (Occurs "journal" lower \/ Occurs "article" lower)) /\
  (ty = paper <->
     ~ Occurs "book" lower /\ ~ Occurs "journal" lower /\
     ~ Occurs "article" lower /\
     (Occurs "proceedings" lower \/ Occurs "paper" lower)) /\
  (ty = unknown <->
     ~ Occurs "book" lower /\ ~ Occurs "journal" lower /\
     ~ Occurs "article" lower /\ ~ Occurs "proceedings" lower /\
     ~ Occurs "paper" lower) /\
  (ref_type r = "proceedings-article" -> ty = article).
Proof.
  intros lower ty.
  assert (Hty : ty = mapCrossrefType (ref_type r)) by reflexivity.
  split; [|split; [|split; [|split]]];
    [| | | | intros E; rewrite Hty, E; reflexivity].
  all: rewrite Hty; unfold mapCrossrefType; fold lower.
  all: destruct (includes lower "book") eqn:Hb;
       destruct (includes lower "journal") eqn:Hj;
       destruct (includes lower "article") eqn:Ha;
       destruct (includes lower "proceedings") eqn:Hp;
       destruct (includes lower "paper") eqn:Hq; cbn [orb].
  all: repeat match goal with
         | H : includes _ _ = true |- _ => apply includes_Occurs in H
         | H : includes _ _ = false |- _ => apply not_includes_Occurs in H
         end.
  all: split; [try discriminate; intros _; tauto |
               intros G; try reflexivity; exfalso; tauto].
Qed.

Lemma C1_fromCrossref_type_witness :
  ref_type (sampleReference "proceedings-article") = "proceedings-article" /\
  type (fromCrossref noDate (sampleReference "proceedings-article")) = article.
Proof.
  split; [reflexivity|].
  exact (proj2 (proj2 (proj2 (proj2
    (C1_fromCrossref_type noDate (sampleReference "proceedings-article")))))
    eq_refl).
Defined.

(** C1 as worded fails: the type string "Book" does not contain "book",
    "journal", "article", "proceedings" or "paper", yet the reference is
    classified as a book. *)
Lemma C1_counterexample :
  type (fromCrossref noDate (sampleReference "Book")) = book /\
  mapCrossrefType_spec (ref_type (sampleReference "Book")) = unknown /\
  type (fromCrossref noDate (sampleReference "Book")) <>
  mapCrossrefType_spec (ref_type (sampleReference "Book")).
Proof.
  repeat split. discriminate.
Qed.

(** ** C2: the BibTeX entry of the book test *)

(** C2: for the citation "Introduction to Algorithms" by Cormen and
    Leiserson (2009, MIT Press, one ISBN, type book), [toBibTeX] returns
    exactly the seven-line entry, with key "cormen2009introduction" and
    the fields title, author, year, publisher, isbn in that order. *)
Theorem C2_toBibTeX_cormen (src : CitationSource) (abs lang : option string) :
  toBibTeX (cormen src abs lang) =
    "@book{cormen2009introduction," ++ newline
    ++ "  title={Introduction to Algorithms}," ++ newline
    ++ "  author={Thomas H. Cormen and Charles E. Leiserson}," ++ newline
    ++ "  year={2009}," ++ newline
    ++ "  publisher={MIT Press}," ++ newline
    ++ "  isbn={9780262033848}," ++ newline
    ++ "}" /\
  generateBibTeXKey (cormen src abs lang) = "cormen2009introduction" /\
  keyAuthor (cormen src abs lang) = "cormen" /\
  keyYear (cormen src abs lang) = "2009" /\
  keyTitleWord (cormen src abs lang) = "introduction".
Proof.
  repeat split; vm_compute; reflexivity.
Qed.

(** ** C3: the name-formatting primitive *)

(** C3, on the code: [formatAuthorLastFirst] trims the name and cuts it
    at each space character.  A trimmed name without a space is returned
    as it is; otherwise the text after the last space is the family name
    and the text before it, kept verbatim, the given names, and the
    result is "Family, Given".  Every name falls under one of the two
    cases. *)
Theorem C3_formatAuthorLastFirst (name : string) :
  (noSpace (trim name) = true -> formatAuthorLastFirst name = trim name) /\
  (forall given family,
     trim name = given ++ " " ++ family ->
     noSpace family = true ->
     formatAuthorLastFirst name = family ++ ", " ++ given) /\
  (noSpace (trim name) = true \/
   exists given family,
     trim name = given ++ " " ++ family /\ noSpace family = true).
Proof.
  split; [|split].
  - apply formatAuthorLastFirst_single.
  - intros given family. apply formatAuthorLastFirst_swap.
  - apply last_space.
Qed.

Lemma C3_formatAuthorLastFirst_witness :
  (noSpace (trim " Madonna ") = true /\
   formatAuthorLastFirst " Madonna " = "Madonna") /\
  (trim "Thomas H. Cormen" = "Thomas H." ++ " " ++ "Cormen" /\
   noSpace "Cormen" = true /\
   formatAuthorLastFirst "Thomas H. Cormen" = "Cormen, Thomas H.").
Proof.
  split.
  - split; [reflexivity|].
    exact (proj1 (C3_formatAuthorLastFirst " Madonna ") eq_refl).
  - split; [reflexivity|split; [reflexivity|]].
    exact (proj1 (proj2 (C3_formatAuthorLastFirst "Thomas H. Cormen"))
             "Thomas H." "Cormen" eq_refl eq_refl).
Defined.

(** C3 as worded fails: with two spaces inside the given names the code
    keeps both, where splitting on whitespace would leave one. *)
Lemma C3_counterexample :
  formatAuthorLastFirst "Mary  Ann Smith" = "Smith, Mary  Ann" /\
  formatAuthorLastFirst_spec "Mary  Ann Smith" = "Smith, Mary Ann" /\
  formatAuthorLastFirst "Mary  Ann Smith" <>
  formatAuthorLastFirst_spec "Mary  Ann Smith".
Proof.
  repeat split. discriminate.
Qed.

(** ** C4: the second or last author in MLA and Chicago *)

(** C4: with exactly two authors, MLA and Chicago swap the first author
    to "Family, Given" and append the second author's name verbatim,
    after ", and " in MLA and " and " in Chicago; with three or more
    authors, Chicago swaps all but the last, joins them with ", ", and
    appends the last author's name verbatim after ", and ".  The
    renderers open with these author segments.  The swap is that of
    [formatAuthorLastFirst]: a first author "Given Family" becomes
    "Family, Given". *)
Theorem C4_second_or_last_author_verbatim (c : UnifiedCitation) :
  (forall a b,
     authors c = [a; b] ->
     formatAuthorsMLA (authors c) = formatAuthorLastFirst a ++ ", and " ++ b /\
     prefix (formatAuthorLastFirst a ++ ", and " ++ b ++ ". ") (toMLA c) = true /\
     formatAuthorsChicago (authors c) = formatAuthorLastFirst a ++ " and " ++ b /\
     prefix (formatAuthorLastFirst a ++ " and " ++ b ++ ". ") (toChicago c) = true) /\
  (forall a b given family,
     authors c = [a; b] ->
     trim a = given ++ " " ++ family ->
     noSpace family = true ->
     formatAuthorsMLA (authors c) = family ++ ", " ++ given ++ ", and " ++ b /\
     formatAuthorsChicago (authors c) = family ++ ", " ++ given ++ " and " ++ b) /\
  (forall init lastA,
     authors c = (init ++ [lastA])%list ->
     2 <= List.length init ->
     formatAuthorsChicago (authors c) =
       join ", " (map formatAuthorLastFirst init) ++ ", and " ++ lastA /\
     prefix (join ", " (map formatAuthorLastFirst init) ++ ", and " ++ lastA ++ ". ")
            (toChicago c) = true).
Proof.
  pose proof (toMLA_opens c) as HM.
  pose proof (toChicago_opens c) as HC.
  split; [|split].
  - intros a b E. rewrite E in HM, HC |- *.
    cbn [formatAuthorsMLA formatAuthorsChicago] in *.
    autorewrite with str in HM, HC. auto.
  - intros a b given family E Ht Hf. rewrite E.
    cbn [formatAuthorsMLA formatAuthorsChicago].
    rewrite (formatAuthorLastFirst_swap a given family Ht Hf).
    now autorewrite with str.
  - intros init lastA E Hlen. rewrite E in HC |- *.
    rewrite (formatAuthorsChicago_many init lastA Hlen) in *.
    autorewrite with str in HC. auto.
Qed.

Lemma C4_second_or_last_author_verbatim_witness :
  prefix ("Cormen, Thomas H." ++ ", and " ++ "Charles E. Leiserson" ++ ". ")
    (toMLA (sampleCitation ["Thomas H. Cormen"; "Charles E. Leiserson"]
              None None book)) = true /\
  (trim "Thomas H. Cormen" = "Thomas H." ++ " " ++ "Cormen" /\
   noSpace "Cormen" = true /\
   formatAuthorsChicago
     (authors (sampleCitation ["Thomas H. Cormen"; "Charles E. Leiserson"]
                 None None book)) =
     "Cormen, Thomas H. and Charles E. Leiserson") /\
  (2 <= List.length ["Alice Johnson"; "Bob Williams"] /\
   formatAuthorsChicago
     (authors (sampleCitation ["Alice Johnson"; "Bob Williams"; "Carol Davis"]
                 None None paper)) =
     "Johnson, Alice, Williams, Bob, and Carol Davis").
Proof.
  assert (two : 2 <= List.length ["Alice Johnson"; "Bob Williams"])
    by (simpl; lia).
  split; [|split].
  - exact (proj1 (proj2 (proj1
      (C4_second_or_last_author_verbatim
         (sampleCitation ["Thomas H. Cormen"; "Charles E. Leiserson"]
            None None book))
      "Thomas H. Cormen" "Charles E. Leiserson" eq_refl))).
  - split; [reflexivity|split; [reflexivity|]].
    exact (proj2 (proj1 (proj2
      (C4_second_or_last_author_verbatim
         (sampleCitation ["Thomas H. Cormen"; "Charles E. Leiserson"]
            None None book)))
      "Thomas H. Cormen" "Charles E. Leiserson" "Thomas H." "Cormen"
      eq_refl eq_refl eq_refl)).
  - split; [exact two|].
    exact (proj1 (proj2 (proj2
      (C4_second_or_last_author_verbatim
         (sampleCitation ["Alice Johnson"; "Bob Williams"; "Carol Davis"]
            None None paper)))
      ["Alice Johnson"; "Bob Williams"] "Carol Davis" eq_refl two)).
Defined.

(** ** C5: the BibTeX entry type *)

(** C5: the output of [toBibTeX] starts with "@book{" exactly when the
    citation's type is book, and with "@article{" for every other type. *)
Theorem C5_toBibTeX_entry_type (c : UnifiedCitation) :
  (prefix "@book{" (toBibTeX c) = true <-> type c = book) /\
  (type c <> book -> prefix "@article{" (toBibTeX c) = true).
Proof.
  rewrite toBibTeX_closed.
  destruct (type c); cbn [isBook]; split.
  - split; [reflexivity | intros _; starts_with].
  - intros ne. now elim ne.
  - split; [cbn; discriminate | discriminate].
  - intros _. starts_with.
  - split; [cbn; discriminate | discriminate].
  - intros _. starts_with.
  - split; [cbn; discriminate | discriminate].
  - intros _. starts_with.
Qed.

Lemma C5_toBibTeX_entry_type_witness :
  type (sampleCitation [] None None paper) <> book /\
  prefix "@article{" (toBibTeX (sampleCitation [] None None paper)) = true.
Proof.
  assert (ne : type (sampleCitation [] None None paper) <> book)
    by discriminate.
  split; [exact ne|].
  exact (proj2 (C5_toBibTeX_entry_type (sampleCitation [] None None paper)) ne).
Defined.

(** ** C6: no authors *)

(** C6: when the authors list is empty, the author segment of APA, MLA,
    Chicago and Harvard is "Unknown Author", and each rendering opens
    with it. *)
Theorem C6_unknown_author (c : UnifiedCitation) :
  authors c = [] ->
  (formatAuthorsAPA (authors c) = "Unknown Author" /\
   formatAuthorsMLA (authors c) = "Unknown Author" /\
   formatAuthorsChicago (authors c) = "Unknown Author" /\
   formatAuthorsHarvard (authors c) = "Unknown Author") /\
  prefix "Unknown Author (" (toAPA c) = true /\
  prefix "Unknown Author. " (toMLA c) = true /\
  prefix "Unknown Author. " (toChicago c) = true /\
  prefix "Unknown Author (" (toHarvard c) = true.
Proof.
  intros E.
  pose proof (toAPA_opens c) as HA. pose proof (toMLA_opens c) as HM.
  pose proof (toChicago_opens c) as HC. pose proof (toHarvard_opens c) as HH.
  rewrite E in *. auto 10.
Qed.

Lemma C6_unknown_author_witness :
  authors (sampleCitation [] (Some (Int 2020)) None article) = [] /\
  prefix "Unknown Author. "
    (toMLA (sampleCitation [] (Some (Int 2020)) None article)) = true.
Proof.
  split; [reflexivity|].
  exact (proj1 (proj2 (proj2
    (C6_unknown_author (sampleCitation [] (Some (Int 2020)) None article)
       eq_refl)))).
Defined.

(** ** C7: no year *)

(** C7: when the year is absent, APA puts "(n.d.)" and Chicago and
    Harvard put "n.d." where the year would stand, right after the
    author segment. *)
Theorem C7_year_absent (c : UnifiedCitation) :
  year c = None ->
  prefix (formatAuthorsAPA (authors c) ++ " (n.d.). ") (toAPA c) = true /\
  prefix (formatAuthorsChicago (authors c) ++ ". n.d.. ") (toChicago c) = true /\
  prefix (formatAuthorsHarvard (authors c) ++ " (n.d.) ") (toHarvard c) = true.
Proof.
  intros E. apply falsy_year_placeholder. now rewrite E.
Qed.

Lemma C7_year_absent_witness :
  year (sampleCitation ["John Smith"] None None article) = None /\
  prefix ("Smith, John" ++ " (n.d.). ")
    (toAPA (sampleCitation ["John Smith"] None None article)) = true.
Proof.
  split; [reflexivity|].
  exact (proj1 (C7_year_absent
                  (sampleCitation ["John Smith"] None None article) eq_refl)).
Defined.

(** ** C8: MLA assembly *)

(** C8, on the code: [toMLA] assembles the authors, ". ", the title
    (italic for a book, quoted otherwise), ".", then " " and the
    publisher when the publisher is present and not empty, then ", " and
    the year when the year is present and neither 0 nor NaN, then always
    ".", then " ", the URL and "." when the URL is present and not
    empty. *)
Theorem C8_toMLA_assembly (c : UnifiedCitation) :
  toMLA c =
    formatAuthorsMLA (authors c) ++ ". "
    ++ (if isBook (type c) then "<i>" ++ title c ++ "</i>"
        else dquote ++ title c ++ dquote)
    ++ "."
    ++ match publisher c with
       | Some p => if p =? "" then "" else " " ++ p
       | None => ""
       end
    ++ match year c with
       | Some (Int z) => if (z =? 0)%Z then "" else ", " ++ numberToString (Int z)
       | Some NaN => ""
       | None => ""
       end
    ++ "."
    ++ match url c with
       | Some u => if u =? "" then "" else " " ++ u ++ "."
       | None => ""
       end.
Proof.
  rewrite toMLA_closed.
  unfold titleMarkup, italic, quoted, whenTruthy, truthy,
    truthy_string, truthy_number.
  destruct (publisher c) as [p|]; [destruct (p =? "")|];
    (destruct (year c) as [[|z]|]; [|destruct (z =? 0)%Z|]);
    (destruct (url c) as [u|]; [destruct (u =? "")|]);
    reflexivity.
Qed.

(** C8 as worded fails: a citation whose year is 0 has its year present,
    yet MLA emits no ", 0"; likewise a publisher or a URL that is the
    empty string is present, yet MLA emits neither the space of the one
    nor the space and period of the other. *)
Lemma C8_counterexample :
  (year (sampleCitation [] (Some (Int 0)) None book) = Some (Int 0) /\
   toMLA (sampleCitation [] (Some (Int 0)) None book) =
     "Unknown Author. <i>Research Paper</i>. MIT Press." /\
   toMLA_spec (sampleCitation [] (Some (Int 0)) None book) =
     "Unknown Author. <i>Research Paper</i>. MIT Press, 0." /\
   toMLA (sampleCitation [] (Some (Int 0)) None book) <>
   toMLA_spec (sampleCitation [] (Some (Int 0)) None book)) /\
  (toMLA (withPublisher (Some "") (sampleCitation [] None (Some "") book)) =
     "Unknown Author. <i>Research Paper</i>.." /\
   toMLA_spec (withPublisher (Some "") (sampleCitation [] None (Some "") book)) =
     "Unknown Author. <i>Research Paper</i>. . .").
Proof.
  repeat split. discriminate.
Qed.

(** ** C9: DOI and URL in Harvard *)

(** C9, on the code: [toHarvard] does not read the doi field: changing
    it changes nothing.  When the URL is present and not empty the
    output is that of the same citation without URL, followed by
    " Available at: " and the URL, with nothing after it; when the URL is
    absent or empty there is no such suffix. *)
Theorem C9_toHarvard_doi_url (c : UnifiedCitation) :
  (forall d, toHarvard (withDoi d c) = toHarvard c) /\
  (forall u, url c = Some u -> u <> "" ->
     toHarvard c = toHarvard (withUrl None c) ++ " Available at: " ++ u) /\
  (url c = None \/ url c = Some "" ->
     toHarvard c = toHarvard (withUrl None c)).
Proof.
  split; [reflexivity|].
  rewrite !toHarvard_closed. unfold titleMarkup.
  cbn [withUrl year title authors publisher url type].
  split.
  - intros u E ne. rewrite E.
    rewrite whenTruthy_truthy
      by (apply negb_true_iff; now apply String.eqb_neq).
    cbn [whenTruthy]. now autorewrite with str.
  - intros [E|E]; rewrite E; reflexivity.
Qed.

Lemma C9_toHarvard_doi_url_witness :
  url (sampleCitation [] None (Some "https://example.com/article") article) =
    Some "https://example.com/article" /\
  "https://example.com/article" <> "" /\
  toHarvard (sampleCitation [] None (Some "https://example.com/article") article) =
    toHarvard (sampleCitation [] None None article)
    ++ " Available at: " ++ "https://example.com/article".
Proof.
  assert (ne : "https://example.com/article" <> "") by discriminate.
  split; [reflexivity|split; [exact ne|]].
  exact (proj1 (proj2
    (C9_toHarvard_doi_url
       (sampleCitation [] None (Some "https://example.com/article") article)))
    "https://example.com/article" eq_refl ne).
Defined.

(** C9 as worded fails: a citation whose URL is the empty string has its
    URL present, yet Harvard appends no " Available at: ". *)
Lemma C9_counterexample :
  url (sampleCitation [] None (Some "") book) = Some "" /\
  toHarvard (sampleCitation [] None (Some "") book) =
    "Unknown Author (n.d.) <i>Research Paper</i>. MIT Press." /\
  toHarvard_spec (sampleCitation [] None (Some "") book) =
    "Unknown Author (n.d.) <i>Research Paper</i>. MIT Press. Available at: " /\
  toHarvard (sampleCitation [] None (Some "") book) <>
  toHarvard_spec (sampleCitation [] None (Some "") book).
Proof.
  repeat split. discriminate.
Qed.

(** ** C10: the year 0 *)

(** C10: a citation whose year is 0 is rendered by all five renderers as
    the same citation without year: APA shows "(n.d.)", Chicago and
    Harvard show "n.d.", MLA has no year segment, and BibTeX has no year
    field and "nodate" in its key. *)
Theorem C10_year_zero (c : UnifiedCitation) :
  year c = Some (Int 0) ->
  (toAPA c = toAPA (withYear None c) /\
   toMLA c = toMLA (withYear None c) /\
   toChicago c = toChicago (withYear None c) /\
   toHarvard c = toHarvard (withYear None c) /\
   toBibTeX c = toBibTeX (withYear None c)) /\
  (prefix (formatAuthorsAPA (authors c) ++ " (n.d.). ") (toAPA c) = true /\
   prefix (formatAuthorsChicago (authors c) ++ ". n.d.. ") (toChicago c) = true /\
   prefix (formatAuthorsHarvard (authors c) ++ " (n.d.) ") (toHarvard c) = true) /\
  generateBibTeXKey c = keyAuthor c ++ "nodate" ++ keyTitleWord c.
Proof.
  intros E.
  assert (F : truthy (year c) = false) by now rewrite E.
  split; [now apply falsy_year_absent|].
  split; [now apply falsy_year_placeholder|].
  unfold generateBibTeXKey, keyYear. now rewrite E.
Qed.

Lemma C10_year_zero_witness :
  year (sampleCitation ["John Smith"] (Some (Int 0)) None article) =
    Some (Int 0) /\
  toBibTeX (sampleCitation ["John Smith"] (Some (Int 0)) None article) =
  toBibTeX (withYear None
              (sampleCitation ["John Smith"] (Some (Int 0)) None article)).
Proof.
  split; [reflexivity|].
  exact (proj2 (proj2 (proj2 (proj2 (proj1
    (C10_year_zero
       (sampleCitation ["John Smith"] (Some (Int 0)) None article)
       eq_refl)))))).
Defined.

(** * Further properties of the formatter *)

(** ** Trimming *)

Lemma trimStart_head (s : string) :
  trimStart s = "" \/
  exists c r, trimStart s = String c r /\ isWhiteSpace c = false.
Proof.
  induction s as [|c r IH]; cbn [trimStart]; [now left|].
  destruct (isWhiteSpace c) eqn:W; [exact IH|].
  right. now exists c, r.
Qed.

Lemma trimEnd_idem (s : string) : trimEnd (trimEnd s) = trimEnd s.
Proof.
  induction s as [|c r IH]; [reflexivity|].
  cbn [trimEnd]. destruct (trimEnd r) as [|c' r'] eqn:E.
  - destruct (isWhiteSpace c) eqn:W; [reflexivity|].
    cbn [trimEnd]. now rewrite W.
  - cbn [trimEnd] in IH |- *. now rewrite IH.
Qed.

Lemma trimEnd_keeps_head (c : ascii) (r : string) :
  isWhiteSpace c = false -> exists r', trimEnd (String c r) = String c r'.
Proof.
  intros W. cbn [trimEnd].
  destruct (trimEnd r) as [|c' r'']; [rewrite W|]; eauto.
Qed.

Lemma trim_idem (s : string) : trim (trim s) = trim s.
Proof.
  unfold trim.
  destruct (trimStart_head s) as [E|(c & r & E & W)]; rewrite E.
  - reflexivity.
  - destruct (trimEnd_keeps_head c r W) as [r' E'].
    rewrite E'. cbn [trimStart]. rewrite W, <- E'. apply trimEnd_idem.
Qed.

Lemma trimEnd_app_space (s : string) : trimEnd (s ++ " ") = trimEnd s.
Proof.
  induction s as [|c r IH]; [reflexivity|].
  cbn [append trimEnd]. now rewrite IH.
Qed.

Lemma trim_app_space (s : string) : trim (s ++ " ") = trim s.
Proof.
  unfold trim. induction s as [|c r IH]; [reflexivity|].
  cbn [append trimStart]. destruct (isWhiteSpace c); [exact IH|].
  change (String c (r ++ " ")) with (String c r ++ " ").
  apply trimEnd_app_space.
Qed.

Lemma trim_space_app (s : string) : trim (" " ++ s) = trim s.
Proof. reflexivity. Qed.

(** ** Names *)

(** X1: white space around a name does not change how it is rendered. *)
Theorem X1_formatAuthorLastFirst_padding (name : string) :
  formatAuthorLastFirst (trim name) = formatAuthorLastFirst name /\
  formatAuthorLastFirst (" " ++ name ++ " ") = formatAuthorLastFirst name.
Proof.
  unfold formatAuthorLastFirst. split.
  - now rewrite trim_idem.
  - now rewrite trim_space_app, trim_app_space.
Qed.

(** ** The Crossref adapter *)

Lemma truthy_string_iff (s : string) : truthy s = true <-> s <> "".
Proof.
  unfold truthy, truthy_string. rewrite negb_true_iff. apply String.eqb_neq.
Qed.




(** X3: the fallbacks of [fromCrossref].  The title is never empty: it
    is the first title when that is not empty, and "Untitled" otherwise.
    The URL is the reference's URL when that is not empty, and the
    resource's primary URL otherwise.  The year is absent exactly when
    there is no creation date or it is empty. *)
Theorem X3_fromCrossref_fallbacks (getFullYear : string -> number) (r : Reference) :
  title (fromCrossref getFullYear r) <> "" /\
  (forall t rest, ref_title r = Some (t :: rest) -> t <> "" ->
     title (fromCrossref getFullYear r) = t) /\
  (ref_title r = None \/ ref_title r = Some [] \/
   (exists rest, ref_title r = Some ("" :: rest)) ->
     title (fromCrossref getFullYear r) = "Untitled") /\
  (forall u, ref_URL r = Some u -> u <> "" ->
     url (fromCrossref getFullYear r) = Some u) /\
  (ref_URL r = None \/ ref_URL r = Some "" ->
     url (fromCrossref getFullYear r) = ref_resource r) /\
  (year (fromCrossref getFullYear r) = None <->
   ref_created r = None \/ ref_created r = Some "").
Proof.
  cbn [fromCrossref title url year].
  repeat split.
  - destruct (ref_title r) as [[|t rest]|]; cbn; try discriminate.
    destruct (truthy t) eqn:T; [|discriminate].
    now apply truthy_string_iff.
  - intros t rest E ne. rewrite E. cbn.
    apply truthy_string_iff in ne. now rewrite ne.
  - intros [E|[E|[rest E]]]; now rewrite E.
  - intros u E ne. rewrite E. cbn.
    apply truthy_string_iff in ne. now rewrite ne.
  - intros [E|E]; now rewrite E.
  - destruct (ref_created r) as [d|]; cbn; [|now left].
    destruct (truthy d) eqn:T; [discriminate|].
    intros _. right. f_equal.
    destruct (String.eqb_spec d "") as [->|ne]; [reflexivity|].
    apply truthy_string_iff in ne. congruence.
  - intros [E|E]; now rewrite E.
Qed.

Lemma X3_fromCrossref_fallbacks_witness :
  (ref_URL (datedReference "2023") = None \/
   ref_URL (datedReference "2023") = Some "") /\
  url (fromCrossref noDate (datedReference "2023")) =
    Some "https://example.com/article".
Proof.
  assert (E : ref_URL (datedReference "2023") = None \/
              ref_URL (datedReference "2023") = Some "")
    by (right; reflexivity).
  split; [exact E|].
  exact (proj1 (proj2 (proj2 (proj2 (proj2
    (X3_fromCrossref_fallbacks noDate (datedReference "2023")))))) E).
Defined.



(** ** Author lists *)

Lemma formatAuthorsAPA_many (init : list string) (lastA : string) :
  2 <= List.length init ->
  formatAuthorsAPA (init ++ [lastA]) =
  join ", " (map formatAuthorLastFirst init) ++ ", & "
  ++ formatAuthorLastFirst lastA.
Proof.
  intros Hlen.
  destruct init as [|a [|b init]]; simpl in Hlen; try lia.
  transitivity
    (join ", " (map formatAuthorLastFirst
                  (sliceInit ((a :: b :: init) ++ [lastA])))
     ++ ", & "
     ++ formatAuthorLastFirst (last ((a :: b :: init) ++ [lastA]) "")).
  - cbn [app]. destruct (init ++ [lastA])%list eqn:E; [|reflexivity].
    destruct init; discriminate.
  - unfold sliceInit. now rewrite removelast_last, last_last.
Qed.

(** X5: APA swaps every author, the last one included: two authors are
    joined by " & ", and with three or more all but the last are joined
    by ", " and the last follows ", & ".  [toAPA] opens with that
    segment. *)
Theorem X5_formatAuthorsAPA (c : UnifiedCitation) :
  (forall a b, authors c = [a; b] ->
     formatAuthorsAPA (authors c) =
       formatAuthorLastFirst a ++ " & " ++ formatAuthorLastFirst b /\
     prefix (formatAuthorLastFirst a ++ " & " ++ formatAuthorLastFirst b ++ " (")
            (toAPA c) = true) /\
  (forall init lastA,
     authors c = (init ++ [lastA])%list -> 2 <= List.length init ->
     formatAuthorsAPA (authors c) =
       join ", " (map formatAuthorLastFirst init) ++ ", & "
       ++ formatAuthorLastFirst lastA /\
     prefix (join ", " (map formatAuthorLastFirst init) ++ ", & "
             ++ formatAuthorLastFirst lastA ++ " (")
            (toAPA c) = true).
Proof.
  pose proof (toAPA_opens c) as HA.
  split.
  - intros a b E. rewrite E in HA |- *. cbn [formatAuthorsAPA] in *.
    autorewrite with str in HA. auto.
  - intros init lastA E Hlen. rewrite E in HA |- *.
    rewrite (formatAuthorsAPA_many init lastA Hlen) in *.
    autorewrite with str in HA. auto.
Qed.

Lemma X5_formatAuthorsAPA_witness :
  2 <= List.length ["Alice Johnson"; "Bob Williams"] /\
  formatAuthorsAPA
    (authors (sampleCitation ["Alice Johnson"; "Bob Williams"; "Carol Davis"]
                None None article)) =
  "Johnson, Alice, Williams, Bob, & Davis, Carol".
Proof.
  assert (two : 2 <= List.length ["Alice Johnson"; "Bob Williams"])
    by (simpl; lia).
  split; [exact two|].
  exact (proj1 (proj2
    (X5_formatAuthorsAPA
       (sampleCitation ["Alice Johnson"; "Bob Williams"; "Carol Davis"]
          None None article))
    ["Alice Johnson"; "Bob Williams"] "Carol Davis" eq_refl two)).
Defined.

(** X6: with three or more authors MLA and Harvard name the first
    author only: whatever the other names are, the segment is the first
    author swapped, then ", et al" in MLA and " et al." in Harvard. *)
Theorem X6_et_al (c : UnifiedCitation) (a : string) (others : list string) :
  authors c = a :: others ->
  2 <= List.length others ->
  formatAuthorsMLA (authors c) = formatAuthorLastFirst a ++ ", et al" /\
  formatAuthorsHarvard (authors c) = formatAuthorLastFirst a ++ " et al." /\
  prefix (formatAuthorLastFirst a ++ ", et al. ") (toMLA c) = true /\
  prefix (formatAuthorLastFirst a ++ " et al. (") (toHarvard c) = true.
Proof.
  intros E Hlen.
  pose proof (toMLA_opens c) as HM. pose proof (toHarvard_opens c) as HH.
  rewrite E in *.
  destruct others as [|b [|b' others]]; simpl in Hlen; try lia.
  cbn [formatAuthorsMLA formatAuthorsHarvard] in *.
  autorewrite with str in HM, HH. auto.
Qed.

Lemma X6_et_al_witness :
  2 <= List.length ["Bob Williams"; "Carol Davis"] /\
  formatAuthorsMLA
    (authors (sampleCitation ["Alice Johnson"; "Bob Williams"; "Carol Davis"]
                None None article)) = "Johnson, Alice, et al".
Proof.
  assert (two : 2 <= List.length ["Bob Williams"; "Carol Davis"])
    by (simpl; lia).
  split; [exact two|].
  exact (proj1
    (X6_et_al
       (sampleCitation ["Alice Johnson"; "Bob Williams"; "Carol Davis"]
          None None article)
       "Alice Johnson" ["Bob Williams"; "Carol Davis"] eq_refl two)).
Defined.

(** ** Links *)

(** X7: in APA and Chicago a DOI that is not empty takes precedence:
    the output is that of the citation without DOI and URL, followed by
    the doi.org link (closed by a period in Chicago only); the URL is
    not used. *)
Theorem X7_doi_precedence (c : UnifiedCitation) (d : string) :
  doi c = Some d -> d <> "" ->
  toAPA c = toAPA (withDoi None (withUrl None c))
            ++ " https://doi.org/" ++ d /\
  toChicago c = toChicago (withDoi None (withUrl None c))
                ++ " https://doi.org/" ++ d ++ "." /\
  (forall u, toAPA (withUrl u c) = toAPA c /\
             toChicago (withUrl u c) = toChicago c).
Proof.
  intros E ne. apply truthy_string_iff in ne.
  repeat split; intros;
    rewrite ?toAPA_closed, ?toChicago_closed; unfold titleMarkup;
    cbn [withDoi withUrl year title authors publisher doi url type];
    rewrite E, !(whenTruthy_truthy d) by exact ne;
    cbn [whenTruthy]; autorewrite with str; reflexivity.
Qed.

Lemma X7_doi_precedence_witness :
  doi (withDoi (Some "10.1162/neco_a_01199")
         (sampleCitation ["John Smith"] None (Some "https://example.com") article)) =
    Some "10.1162/neco_a_01199" /\
  "10.1162/neco_a_01199" <> "" /\
  toAPA (withDoi (Some "10.1162/neco_a_01199")
           (sampleCitation ["John Smith"] None (Some "https://example.com") article)) =
  toAPA (sampleCitation ["John Smith"] None None article)
  ++ " https://doi.org/" ++ "10.1162/neco_a_01199".
Proof.
  assert (ne : "10.1162/neco_a_01199" <> "") by discriminate.
  split; [reflexivity|split; [exact ne|]].
  exact (proj1
    (X7_doi_precedence
       (withDoi (Some "10.1162/neco_a_01199")
          (sampleCitation ["John Smith"] None (Some "https://example.com")
             article))
       "10.1162/neco_a_01199" eq_refl ne)).
Defined.

(** X8: in APA and Chicago, when the DOI is absent or empty, a URL that
    is not empty is appended after a space (closed by a period in
    Chicago only). *)
Theorem X8_url_fallback (c : UnifiedCitation) (u : string) :
  doi c = None \/ doi c = Some "" ->
  url c = Some u -> u <> "" ->
  toAPA c = toAPA (withUrl None c) ++ " " ++ u /\
  toChicago c = toChicago (withUrl None c) ++ " " ++ u ++ ".".
Proof.
  intros D E ne. apply truthy_string_iff in ne.
  split; rewrite ?toAPA_closed, ?toChicago_closed; unfold titleMarkup;
    cbn [withUrl year title authors publisher doi url type];
    rewrite E, !(whenTruthy_truthy u) by exact ne;
    (destruct D as [D|D]; rewrite D; cbn [whenTruthy];
     autorewrite with str; reflexivity).
Qed.

Lemma X8_url_fallback_witness :
  (doi (sampleCitation ["John Smith"] None (Some "https://example.com") article)
     = None \/
   doi (sampleCitation ["John Smith"] None (Some "https://example.com") article)
     = Some "") /\
  "https://example.com" <> "" /\
  toChicago (sampleCitation ["John Smith"] None (Some "https://example.com") article) =
  toChicago (sampleCitation ["John Smith"] None None article)
  ++ " " ++ "https://example.com" ++ ".".
Proof.
  assert (ne : "https://example.com" <> "") by discriminate.
  assert (D : doi (sampleCitation ["John Smith"] None
                     (Some "https://example.com") article) = None \/
              doi (sampleCitation ["John Smith"] None
                     (Some "https://example.com") article) = Some "")
    by (left; reflexivity).
  split; [exact D|split; [exact ne|]].
  exact (proj2
    (X8_url_fallback
       (sampleCitation ["John Smith"] None (Some "https://example.com") article)
       "https://example.com" D eq_refl ne)).
Defined.

(** ** The BibTeX key *)













(** ** Endings *)

Lemma EndsWith_refl (suf : string) : EndsWith suf suf.
Proof. now exists "". Qed.

Lemma EndsWith_app_r (suf s t : string) :
  EndsWith suf t -> EndsWith suf (s ++ t).
Proof.
  intros [pre ->]. exists (s ++ pre). now rewrite append_assoc.
Qed.

Lemma append_empty_l (a : string) : "" ++ a = a.
Proof. reflexivity. Qed.

Ltac ends_with :=
  first [apply EndsWith_refl | apply EndsWith_app_r; ends_with].

Ltac tidy := autorewrite with str; rewrite ?append_empty_l.

(** X10: an MLA and a Chicago citation always end with a period, and a
    BibTeX entry always ends with a comma, a line break and the closing
    brace. *)
Theorem X10_endings (c : UnifiedCitation) :
  EndsWith "." (toMLA c) /\
  EndsWith "." (toChicago c) /\
  EndsWith ("}," ++ newline ++ "}") (toBibTeX c).
Proof.
  split; [|split].
  - rewrite toMLA_closed. split_fields; tidy; ends_with.
  - rewrite toChicago_closed. unfold titleMarkup, italic, quoted.
    split_fields; destruct (isBook (type c)); tidy; ends_with.
  - rewrite toBibTeX_closed.
    destruct (authors c); destruct (isbn c) as [[|i l']|];
      split_fields; tidy; ends_with.
Qed.

(** ** Adapters composed with renderers *)

Lemma Occurs_here (x post : string) : Occurs x (x ++ post).
Proof. now exists "", post. Qed.

Lemma Occurs_app_r (x s t : string) : Occurs x t -> Occurs x (s ++ t).
Proof.
  intros (pre & post & ->). exists (s ++ pre), post.
  now rewrite append_assoc.
Qed.

Ltac occurs :=
  first [apply Occurs_here | apply Occurs_app_r; occurs].

(** X11: the BibTeX entry of a Google Books or Open Library record is
    always a book entry; that of a Crossref reference is a book entry
    exactly when its lower-cased type contains "book", and an article
    entry otherwise. *)
Theorem X11_entry_type_by_adapter (getFullYear : string -> number)
  (r : Reference) (g : GoogleBooksItem) (o : OpenLibraryItem) :
  prefix "@book{" (toBibTeX (fromGoogleBooks getFullYear g)) = true /\
  prefix "@book{" (toBibTeX (fromOpenLibrary o)) = true /\
  (prefix "@book{" (toBibTeX (fromCrossref getFullYear r)) = true <->
   Occurs "book" (toLowerCase (ref_type r))) /\
  (prefix "@article{" (toBibTeX (fromCrossref getFullYear r)) = true <->
   ~ Occurs "book" (toLowerCase (ref_type r))).
Proof.
  rewrite !toBibTeX_closed.
  split; [starts_with|split; [starts_with|]].
  cbn [fromCrossref type]. unfold mapCrossrefType.
  rewrite <- not_includes_Occurs, <- includes_Occurs.
  set (lower := toLowerCase (ref_type r)).
  destruct (includes lower "book");
    [|destruct (orb (includes lower "journal") (includes lower "article"));
      [|destruct (orb (includes lower "proceedings") (includes lower "paper"))]];
    cbn [isBook]; split; split; intros H; try reflexivity;
    try discriminate; try starts_with;
    try (apply prefix_elim in H as [rest H]; discriminate H).
Qed.

(** X12: an Open Library citation always carries its link: every style
    but BibTeX ends with https://openlibrary.org followed by the record's
    key (and a period in MLA and Chicago), after " Available at: " in
    Harvard, and BibTeX has the url field. *)
Theorem X12_fromOpenLibrary_link (o : OpenLibraryItem) :
  let c := fromOpenLibrary o in
  let link := "https://openlibrary.org" ++ ol_key o in
  toAPA c = toAPA (withUrl None c) ++ " " ++ link /\
  toMLA c = toMLA (withUrl None c) ++ " " ++ link ++ "." /\
  toChicago c = toChicago (withUrl None c) ++ " " ++ link ++ "." /\
  toHarvard c = toHarvard (withUrl None c) ++ " Available at: " ++ link /\
  Occurs ("  url={" ++ link ++ "}," ++ newline) (toBibTeX c).
Proof.
  intros c link.
  assert (U : url c = Some link) by reflexivity.
  assert (D : doi c = None) by reflexivity.
  assert (T : truthy link = true) by reflexivity.
  repeat split;
    rewrite ?toAPA_closed, ?toMLA_closed, ?toChicago_closed,
      ?toHarvard_closed, ?toBibTeX_closed;
    unfold titleMarkup;
    cbn [withUrl year title authors publisher doi url type];
    rewrite ?U, ?D, ?(whenTruthy_truthy link) by exact T;
    cbn [whenTruthy]; try (autorewrite with str; reflexivity).
  occurs.
Qed.

(** X13: [fromGoogleBooks] keeps the identifiers in order and drops
    their kinds, and the BibTeX entry shows the first of them, whichever
    kind it is; without identifiers the ISBN list is empty, not
    absent. *)
Theorem X13_fromGoogleBooks_isbn (getFullYear : string -> number)
  (g : GoogleBooksItem) :
  (forall i ids, gb_industryIdentifiers g = Some (i :: ids) ->
     isbn (fromGoogleBooks getFullYear g) =
       Some (identifier i :: map identifier ids) /\
     Occurs ("  isbn={" ++ identifier i ++ "}," ++ newline)
            (toBibTeX (fromGoogleBooks getFullYear g))) /\
  (gb_industryIdentifiers g = None \/ gb_industryIdentifiers g = Some [] ->
     isbn (fromGoogleBooks getFullYear g) = Some [] /\
     toBibTeX (fromGoogleBooks getFullYear g) =
     toBibTeX (withIsbn None (fromGoogleBooks getFullYear g))).
Proof.
  split.
  - intros i ids E. split.
    + cbn [fromGoogleBooks isbn]. now rewrite E.
    + rewrite toBibTeX_closed. cbn [fromGoogleBooks isbn]. rewrite E.
      cbn [map]. occurs.
  - intros E. split.
    + cbn [fromGoogleBooks isbn]. now destruct E as [E|E]; rewrite E.
    + rewrite !toBibTeX_closed.
      cbn [withIsbn fromGoogleBooks isbn title authors year publisher doi
             url type generateBibTeXKey].
      now destruct E as [E|E]; rewrite E.
Qed.

Lemma X13_fromGoogleBooks_isbn_witness :
  gb_industryIdentifiers sampleGoogleBooksItem =
    Some [mkIdentifier "ISBN_13" "9780262033848";
          mkIdentifier "ISBN_10" "0262033844"] /\
  isbn (fromGoogleBooks noDate sampleGoogleBooksItem) =
    Some ["9780262033848"; "0262033844"].
Proof.
  split; [reflexivity|].
  exact (proj1 (proj1 (X13_fromGoogleBooks_isbn noDate sampleGoogleBooksItem)
                  _ _ eq_refl)).
Defined.

(** * Properties of the retrieval client *)

Section Retrieval.

Import GetReference.

Variable crossrefApi : list Request -> Request -> exn + ReferencesSearchResponse.
Variable googleBooksApi : list Request -> Request -> exn + GoogleBooksResponse.
Variable openLibraryApi : list Request -> Request -> exn + OpenLibraryResponse.

Lemma appendWhenDefined_params {O} (options : option O)
  (field : O -> option number) (name : string) (u : Request) :
  appendWhenDefined options field name u =
  mkRequest (base u) (searchParams u ++ optParam name (optField options field)).
Proof.
  unfold appendWhenDefined, optParam, optField, appendParam.
  destruct options as [o|]; [destruct (field o)|];
    destruct u; cbn; now rewrite ?app_nil_r.
Qed.

Lemma blank_reqAuthor (reqAuthor : string) :
  negb (truthy reqAuthor) || (trim reqAuthor =? "") = (trim reqAuthor =? "").
Proof.
  destruct reqAuthor; reflexivity.
Qed.

Lemma crossref_url (title reqAuthor : string)
  (options : option PaginationOptions) :
  appendParam "mailto" reqAuthor
    (appendWhenDefined options offset "offset"
       (appendWhenDefined options rows "rows"
          (appendParam "query" title (mkRequest crossrefURL [])))) =
  crossrefRequest title reqAuthor options.
Proof.
  rewrite !appendWhenDefined_params.
  unfold appendParam, crossrefRequest. cbn [base searchParams].
  f_equal. cbn [app]. now rewrite <- app_assoc.
Qed.

Lemma googleBooks_url (title : string)
  (options : option GoogleBooksPaginationOptions) :
  appendWhenDefined options startIndex "startIndex"
    (appendWhenDefined options maxResults "maxResults"
       (appendParam "q" title (mkRequest googleBooksURL []))) =
  googleBooksRequest title options.
Proof.
  rewrite !appendWhenDefined_params.
  unfold appendParam, googleBooksRequest. cbn [base searchParams].
  f_equal.
Qed.

Lemma openLibrary_url (title : string)
  (options : option OpenLibraryPaginationOptions) :
  appendWhenDefined options ol_offset "offset"
    (appendWhenDefined options limit "limit"
       (appendParam "title" title (mkRequest openLibraryURL []))) =
  openLibraryRequest title options.
Proof.
  rewrite !appendWhenDefined_params.
  unfold appendParam, openLibraryRequest. cbn [base searchParams].
  f_equal.
Qed.

(** The three searches, run from a trace. *)
Lemma fromTitle_run (title reqAuthor : string)
  (options : option PaginationOptions) (t : Trace) :
  fromTitle crossrefApi title reqAuthor options t =
  if trim reqAuthor =? "" then (inl politeError, t)
  else
    (match crossrefApi (requests t) (crossrefRequest title reqAuthor options) with
     | inl e => inl e
     | inr res =>
         match message res with
         | Some m => match items m with
                     | Some (_ :: _) => inr res
                     | _ => inl "No reference found"
                     end
         | None => inl "No reference found"
         end
     end,
     mkTrace (requests t ++ [crossrefRequest title reqAuthor options])
             (warnings t)).
Proof.
  unfold fromTitle. rewrite blank_reqAuthor.
  destruct (trim reqAuthor =? ""); [reflexivity|].
  cbv zeta. rewrite crossref_url. unfold bind, fetchJson.
  destruct (crossrefApi _ _) as [e|res]; [reflexivity|].
  destruct (message res) as [m|]; [|reflexivity].
  now destruct (items m) as [[|r rs]|].
Qed.

Lemma fromTitleGoogleBooks_run (title : string)
  (options : option GoogleBooksPaginationOptions) (t : Trace) :
  fromTitleGoogleBooks googleBooksApi title options t =
  (match googleBooksApi (requests t) (googleBooksRequest title options) with
   | inl e => inl e
   | inr res => match gb_items res with
                | Some (_ :: _) => inr res
                | _ => inl "No books found"
                end
   end,
   mkTrace (requests t ++ [googleBooksRequest title options]) (warnings t)).
Proof.
  unfold fromTitleGoogleBooks.
  cbv zeta. rewrite googleBooks_url. unfold bind, fetchJson.
  destruct (googleBooksApi _ _) as [e|res]; [reflexivity|].
  now destruct (gb_items res) as [[|r rs]|].
Qed.

Lemma fromTitleOpenLibrary_run (title : string)
  (options : option OpenLibraryPaginationOptions) (t : Trace) :
  fromTitleOpenLibrary openLibraryApi title options t =
  (match openLibraryApi (requests t) (openLibraryRequest title options) with
   | inl e => inl e
   | inr res => match docs res with
                | Some (_ :: _) => inr res
                | _ => inl "No books found in Open Library"
                end
   end,
   mkTrace (requests t ++ [openLibraryRequest title options]) (warnings t)).
Proof.
  unfold fromTitleOpenLibrary.
  cbv zeta. rewrite openLibrary_url. unfold bind, fetchJson.
  destruct (openLibraryApi _ _) as [e|res]; [reflexivity|].
  now destruct (docs res) as [[|r rs]|].
Qed.

(** ** The Crossref search *)

(** X14: with an empty or blank [reqAuthor], [fromTitle] throws the
    politeness error and sends nothing: the trace is unchanged, whatever
    the service would have answered. *)
Theorem X14_fromTitle_blank_author (title reqAuthor : string)
  (options : option PaginationOptions) (t : Trace) :
  trim reqAuthor = "" ->
  fromTitle crossrefApi title reqAuthor options t = (inl politeError, t).
Proof.
  intros E. rewrite fromTitle_run. now rewrite E.
Qed.

(** X15: with a [reqAuthor] that is not blank, [fromTitle] sends exactly
    one request, to the Crossref URL, with the parameters query, rows
    and offset (each only when defined, a zero included) and mailto (the
    address as given), in that order.  It returns the service's body as
    it is exactly when the body has at least one item; a rejection is
    passed on, and a body without items gives "No reference found". *)
Theorem X15_fromTitle_outcome (title reqAuthor : string)
  (options : option PaginationOptions) (t : Trace) :
  trim reqAuthor <> "" ->
  let req := crossrefRequest title reqAuthor options in
  let run := fromTitle crossrefApi title reqAuthor options t in
  snd run = mkTrace (requests t ++ [req]) (warnings t) /\
  (forall res, fst run = inr res <->
               crossrefApi (requests t) req = inr res /\ hasReferences res) /\
  (forall e, crossrefApi (requests t) req = inl e -> fst run = inl e) /\
  (forall res, crossrefApi (requests t) req = inr res ->
               ~ hasReferences res -> fst run = inl "No reference found").
Proof.
  intros ne req run. subst run. rewrite fromTitle_run.
  apply String.eqb_neq in ne. rewrite ne. fold req. cbn [fst snd].
  split; [reflexivity|].
  unfold hasReferences.
  destruct (crossrefApi (requests t) req) as [e|res0];
    [|destruct (message res0) as [m|] eqn:Em;
      [destruct (items m) as [[|r rs]|] eqn:Ei|]].
  all: split; [intros res; split;
                 [intros H | intros [H (m' & r' & rs' & Hm & Hi)]]
              | split; [intros e' H | intros res H Hn]].
  all: try discriminate; try congruence.
  all: try (injection H as <-).
  all: try congruence.
  - split; [reflexivity|eauto].
  - exfalso. apply Hn. eauto.
Qed.

(** ** The book searches *)

(** X16: [fromTitleGoogleBooks] and [fromTitleOpenLibrary] always send
    exactly one request (q or title, then the defined pagination
    parameters) and return the service's body exactly when it has at
    least one result. *)
Theorem X16_book_searches (title : string)
  (gopts : option GoogleBooksPaginationOptions)
  (oopts : option OpenLibraryPaginationOptions) (t : Trace) :
  let greq := googleBooksRequest title gopts in
  let oreq := openLibraryRequest title oopts in
  let grun := fromTitleGoogleBooks googleBooksApi title gopts t in
  let orun := fromTitleOpenLibrary openLibraryApi title oopts t in
  snd grun = mkTrace (requests t ++ [greq]) (warnings t) /\
  snd orun = mkTrace (requests t ++ [oreq]) (warnings t) /\
  (forall res, fst grun = inr res <->
               googleBooksApi (requests t) greq = inr res /\ hasBooks res) /\
  (forall res, fst orun = inr res <->
               openLibraryApi (requests t) oreq = inr res /\ hasDocs res).
Proof.
  intros greq oreq grun orun. subst grun orun.
  rewrite fromTitleGoogleBooks_run, fromTitleOpenLibrary_run.
  fold greq oreq. cbn [fst snd].
  split; [reflexivity|split; [reflexivity|]].
  unfold hasBooks, hasDocs. split; intros res.
  - destruct (googleBooksApi (requests t) greq) as [e|res0];
      [|destruct (gb_items res0) as [[|b bs]|] eqn:Ei].
    all: split; [intros H | intros [H (b' & bs' & Hi)]].
    all: try discriminate; try (injection H as <-); try congruence.
    split; [reflexivity|eauto].
  - destruct (openLibraryApi (requests t) oreq) as [e|res0];
      [|destruct (docs res0) as [[|b bs]|] eqn:Ei].
    all: split; [intros H | intros [H (b' & bs' & Hi)]].
    all: try discriminate; try (injection H as <-); try congruence.
    split; [reflexivity|eauto].
Qed.

End Retrieval.

Lemma X14_fromTitle_blank_author_witness :
  trim "   " = "" /\
  GetReference.fromTitle oneReferenceApi "Deep Learning" "   " None
    GetReference.start = (inl politeError, GetReference.start).
Proof.
  split; [reflexivity|].
  exact (X14_fromTitle_blank_author oneReferenceApi "Deep Learning" "   "
           None GetReference.start eq_refl).
Defined.

Lemma X15_fromTitle_outcome_witness :
  trim "me@example.org" <> "" /\
  snd (GetReference.fromTitle oneReferenceApi "Deep Learning" "me@example.org"
         (Some (GetReference.mkPaginationOptions (Some (Int 0)) None))
         GetReference.start) =
  GetReference.mkTrace
    [GetReference.mkRequest "https://api.crossref.org/works"
       [("query", "Deep Learning"); ("rows", "0");
        ("mailto", "me@example.org")]]
    [].
Proof.
  assert (ne : trim "me@example.org" <> "") by discriminate.
  split; [exact ne|].
  exact (proj1 (X15_fromTitle_outcome oneReferenceApi "Deep Learning"
                  "me@example.org"
                  (Some (GetReference.mkPaginationOptions (Some (Int 0)) None))
                  GetReference.start ne)).
Defined.

(** ** The combined search *)

Section AllSources.

Import GetReference.

Variable crossrefApi : list Request -> Request -> exn + ReferencesSearchResponse.
Variable googleBooksApi : list Request -> Request -> exn + GoogleBooksResponse.
Variable openLibraryApi : list Request -> Request -> exn + OpenLibraryResponse.

Lemma attempt_run {A} (label : string) (m : M A) (t : Trace) :
  attempt label m t =
  match m t with
  | (inr a, t') => (inr (Some a), t')
  | (inl e, t') =>
      (inr None, mkTrace (requests t') (warnings t' ++ [(label, e)]))
  end.
Proof.
  unfold attempt, tryCatch, bind, ret, warn.
  now destruct (m t) as [[e|a] t'].
Qed.

(** Every way the three searches can end. *)
Ltac all_cases :=
  unfold fromTitleAllSources, bind;
  rewrite attempt_run, fromTitle_run;
  destruct (trim _ =? "") eqn:Eb;
    [|destruct (crossrefApi _ _) as [ec|rc] eqn:Ec;
      [|destruct (message rc) as [mc|] eqn:Emc;
        [destruct (items mc) as [[|? ?]|] eqn:Eic|]]];
  rewrite attempt_run, fromTitleGoogleBooks_run;
  cbn [requests warnings];
  (destruct (googleBooksApi _ _) as [eg|rg] eqn:Eg;
    [|destruct (gb_items rg) as [[|? ?]|] eqn:Eig]);
  rewrite attempt_run, fromTitleOpenLibrary_run;
  cbn [requests warnings];
  (destruct (openLibraryApi _ _) as [eo|ro] eqn:Eo;
    [|destruct (docs ro) as [[|? ?]|] eqn:Eio]);
  unfold ret, throw; cbn [fst snd requests warnings].

(** X17: [fromTitleAllSources] queries every source, in the order
    Crossref, Google Books, Open Library, whatever the earlier ones
    answer; only the Crossref request is left out, when [reqAuthor] is
    blank. *)
Theorem X17_fromTitleAllSources_requests (title reqAuthor : string)
  (options : option AllOptions) (t : Trace) :
  requests (snd (fromTitleAllSources crossrefApi googleBooksApi openLibraryApi
                   title reqAuthor options t)) =
  (requests t
   ++ (if trim reqAuthor =? "" then []
       else [crossrefRequest title reqAuthor (optField options opt_crossref)])
   ++ [googleBooksRequest title (optField options opt_googleBooks);
       openLibraryRequest title (optField options opt_openLibrary)])%list.
Proof.
  all_cases; rewrite <- ?app_assoc; reflexivity.
Qed.

(** X18: [fromTitleAllSources] throws only when all three searches
    failed, and then always "No results found from any source", after
    three warnings; the error of a single search is never passed on.
    Otherwise it returns the results it has: at least one source is
    present, every present response has at least one result, and there
    is one warning for each absent source. *)
Theorem X18_fromTitleAllSources_outcome (title reqAuthor : string)
  (options : option AllOptions) (t : Trace) :
  let run := fromTitleAllSources crossrefApi googleBooksApi openLibraryApi
               title reqAuthor options t in
  (forall e, fst run = inl e ->
     e = "No results found from any source" /\
     List.length (warnings (snd run)) = List.length (warnings t) + 3) /\
  (forall res, fst run = inr res ->
     (res_crossref res <> None \/ res_googleBooks res <> None \/
      res_openLibrary res <> None) /\
     (forall x, res_crossref res = Some x -> hasReferences x) /\
     (forall x, res_googleBooks res = Some x -> hasBooks x) /\
     (forall x, res_openLibrary res = Some x -> hasDocs x) /\
     List.length (warnings (snd run)) =
       List.length (warnings t) + absent (res_crossref res)
       + absent (res_googleBooks res) + absent (res_openLibrary res)).
Proof.
  intros run. subst run. unfold hasReferences, hasBooks, hasDocs.
  all_cases.
  all: split; [intros e H | intros res H]; try discriminate H.
  all: injection H as <-; cbn [res_crossref res_googleBooks res_openLibrary
                                 absent].
  all: rewrite ?List.length_app; cbn [List.length].
  all: repeat split; try lia; try (intros x Hx; try discriminate Hx;
                                   injection Hx as <-; eauto).
  all: first [left; discriminate | right; left; discriminate
             | right; right; discriminate].
Qed.

(** X19: with a blank [reqAuthor] the Crossref service plays no part:
    the outcome and the trace are the same whatever it would answer, the
    result has no Crossref entry, and the first warning is the
    politeness error under "Crossref search failed:". *)
Theorem X19_fromTitleAllSources_blank_author (title reqAuthor : string)
  (options : option AllOptions) (t : Trace)
  (otherApi : list Request -> Request -> exn + ReferencesSearchResponse) :
  trim reqAuthor = "" ->
  let run := fromTitleAllSources crossrefApi googleBooksApi openLibraryApi
               title reqAuthor options t in
  run = fromTitleAllSources otherApi googleBooksApi openLibraryApi
          title reqAuthor options t /\
  (forall res, fst run = inr res -> res_crossref res = None) /\
  exists rest,
    warnings (snd run) =
    (warnings t ++ ("Crossref search failed:", politeError) :: rest)%list.
Proof.
  intros E run. subst run. split; [|split].
  - unfold fromTitleAllSources, bind.
    rewrite !attempt_run, !fromTitle_run. now rewrite E.
  - all_cases; try (rewrite E in Eb; discriminate Eb).
    all: intros res H; try discriminate H; now injection H as <-.
  - all_cases; try (rewrite E in Eb; discriminate Eb).
    all: rewrite <- ?app_assoc; cbn [app]; eauto.
Qed.

(** X20: one source that answers is enough: when a service returns a
    body with at least one result, whatever was sent before,
    [fromTitleAllSources] succeeds and returns that body for its source,
    whatever the other two services do. *)
Theorem X20_fromTitleAllSources_partial (title reqAuthor : string)
  (options : option AllOptions) (t : Trace) :
  let run := fromTitleAllSources crossrefApi googleBooksApi openLibraryApi
               title reqAuthor options t in
  (forall resp,
     trim reqAuthor <> "" ->
     (forall h, crossrefApi h
                  (crossrefRequest title reqAuthor
                     (optField options opt_crossref)) = inr resp) ->
     hasReferences resp ->
     exists res, fst run = inr res /\ res_crossref res = Some resp) /\
  (forall resp,
     (forall h, googleBooksApi h
                  (googleBooksRequest title
                     (optField options opt_googleBooks)) = inr resp) ->
     hasBooks resp ->
     exists res, fst run = inr res /\ res_googleBooks res = Some resp) /\
  (forall resp,
     (forall h, openLibraryApi h
                  (openLibraryRequest title
                     (optField options opt_openLibrary)) = inr resp) ->
     hasDocs resp ->
     exists res, fst run = inr res /\ res_openLibrary res = Some resp).
Proof.
  intros run. subst run. split; [|split].
  - intros resp ne Hs (m & r & rs & Hm & Hi).
    apply String.eqb_neq in ne.
    all_cases; try congruence.
    all: rewrite Hs in Ec; try discriminate Ec; injection Ec as ->.
    all: try congruence.
    all: eexists; split; reflexivity.
  - intros resp Hs (b & bs & Hi).
    all_cases.
    all: rewrite Hs in Eg; try discriminate Eg; injection Eg as ->.
    all: try congruence.
    all: eexists; split; reflexivity.
  - intros resp Hs (b & bs & Hi).
    all_cases.
    all: rewrite Hs in Eo; try discriminate Eo; injection Eo as ->.
    all: try congruence.
    all: eexists; split; reflexivity.
Qed.

End AllSources.

Lemma X18_fromTitleAllSources_outcome_witness :
  fst (GetReference.fromTitleAllSources downApi emptyBooksApi oneBookApi
         "The Pragmatic Programmer" "me@example.org" None GetReference.start) =
    inr (GetReference.mkAllResults None None
           (Some (GetReference.mkOpenLibraryResponse
                    (Some [sampleOpenLibraryItem])))) /\
  List.length
    (GetReference.warnings
       (snd (GetReference.fromTitleAllSources downApi emptyBooksApi oneBookApi
               "The Pragmatic Programmer" "me@example.org" None
               GetReference.start))) = 2.
Proof.
  split; [reflexivity|].
  exact (proj2 (proj2 (proj2 (proj2
    (proj2 (X18_fromTitleAllSources_outcome downApi emptyBooksApi oneBookApi
              "The Pragmatic Programmer" "me@example.org" None
              GetReference.start) _ eq_refl))))).
Defined.

Lemma X19_fromTitleAllSources_blank_author_witness :
  trim "" = "" /\
  GetReference.fromTitleAllSources oneReferenceApi emptyBooksApi oneBookApi
    "The Pragmatic Programmer" "" None GetReference.start =
  GetReference.fromTitleAllSources downApi emptyBooksApi oneBookApi
    "The Pragmatic Programmer" "" None GetReference.start.
Proof.
  split; [reflexivity|].
  exact (proj1 (X19_fromTitleAllSources_blank_author oneReferenceApi
                  emptyBooksApi oneBookApi "The Pragmatic Programmer" ""
                  None GetReference.start downApi eq_refl)).
Defined.

Lemma X20_fromTitleAllSources_partial_witness :
  (forall h, oneBookApi h
               (openLibraryRequest "The Pragmatic Programmer"
                  (optField None GetReference.opt_openLibrary)) =
             inr (GetReference.mkOpenLibraryResponse
                    (Some [sampleOpenLibraryItem]))) /\
  hasDocs (GetReference.mkOpenLibraryResponse (Some [sampleOpenLibraryItem])) /\
  exists res,
    fst (GetReference.fromTitleAllSources downApi emptyBooksApi oneBookApi
           "The Pragmatic Programmer" "me@example.org" None
           GetReference.start) = inr res /\
    GetReference.res_openLibrary res =
      Some (GetReference.mkOpenLibraryResponse (Some [sampleOpenLibraryItem])).
Proof.
  assert (Hs : forall h, oneBookApi h
                 (openLibraryRequest "The Pragmatic Programmer"
                    (optField None GetReference.opt_openLibrary)) =
               inr (GetReference.mkOpenLibraryResponse
                      (Some [sampleOpenLibraryItem]))) by reflexivity.
  assert (Hd : hasDocs (GetReference.mkOpenLibraryResponse
                          (Some [sampleOpenLibraryItem])))
    by (exists sampleOpenLibraryItem, []; reflexivity).
  split; [exact Hs|split; [exact Hd|]].
  exact (proj2 (proj2
    (X20_fromTitleAllSources_partial downApi emptyBooksApi oneBookApi
       "The Pragmatic Programmer" "me@example.org" None GetReference.start))
    _ Hs Hd).
Defined.

(** * Further properties of the renderers *)

Lemma whenTruthy_string {B} (o : option string) (f : string -> B) (d : B) :
  whenTruthy o f d =
  match o with
  | Some p => if p =? "" then d else f p
  | None => d
  end.
Proof.
  destruct o as [p|]; [|reflexivity].
  unfold whenTruthy, truthy, truthy_string. now destruct (p =? "").
Qed.

Lemma whenTruthy_number {B} (o : option number) (f : number -> B) (d : B) :
  whenTruthy o f d =
  match o with
  | Some (Int z) => if (z =? 0)%Z then d else f (Int z)
  | Some NaN => d
  | None => d
  end.
Proof.
  destruct o as [[|z]|]; try reflexivity.
  unfold whenTruthy, truthy, truthy_number. now destruct (z =? 0)%Z.
Qed.

(** X21: a BibTeX entry lists its fields in the fixed order title,
    author, year, publisher, doi, isbn, url, each at most once: the
    title always; the authors, joined by " and ", when there are any;
    the year when it is neither absent, 0 nor NaN; publisher, doi and
    url when present and not empty; the first ISBN when there is one. *)
Theorem X21_toBibTeX_assembly (c : UnifiedCitation) :
  toBibTeX c =
    "@" ++ (if isBook (type c) then "book" else "article") ++ "{"
    ++ generateBibTeXKey c ++ "," ++ newline
    ++ "  title={" ++ title c ++ "}," ++ newline
    ++ match authors c with
       | [] => ""
       | _ :: _ => "  author={" ++ join " and " (authors c) ++ "}," ++ newline
       end
    ++ match year c with
       | Some (Int z) =>
           if (z =? 0)%Z then ""
           else "  year={" ++ numberToString (Int z) ++ "}," ++ newline
       | Some NaN => ""
       | None => ""
       end
    ++ match publisher c with
       | Some p => if p =? "" then ""
                   else "  publisher={" ++ p ++ "}," ++ newline
       | None => ""
       end
    ++ match doi c with
       | Some d => if d =? "" then "" else "  doi={" ++ d ++ "}," ++ newline
       | None => ""
       end
    ++ match isbn c with
       | Some (i :: _) => "  isbn={" ++ i ++ "}," ++ newline
       | Some [] => ""
       | None => ""
       end
    ++ match url c with
       | Some u => if u =? "" then "" else "  url={" ++ u ++ "}," ++ newline
       | None => ""
       end
    ++ "}".
Proof.
  rewrite toBibTeX_closed.
  now rewrite !whenTruthy_string, whenTruthy_number.
Qed.

(** X22: the title of a book is set in italics in APA, MLA, Chicago and
    Harvard; the title of anything else is quoted in MLA and Chicago and
    left plain in APA and Harvard.  In every case a period follows. *)
Theorem X22_title_markup (c : UnifiedCitation) :
  (type c = book ->
   Occurs (". " ++ italic (title c) ++ ".") (toAPA c) /\
   Occurs (". " ++ italic (title c) ++ ".") (toMLA c) /\
   Occurs (". " ++ italic (title c) ++ ".") (toChicago c) /\
   Occurs (") " ++ italic (title c) ++ ".") (toHarvard c)) /\
  (type c <> book ->
   Occurs (". " ++ title c ++ ".") (toAPA c) /\
   Occurs (". " ++ quoted (title c) ++ ".") (toMLA c) /\
   Occurs (". " ++ quoted (title c) ++ ".") (toChicago c) /\
   Occurs (") " ++ title c ++ ".") (toHarvard c)).
Proof.
  rewrite toAPA_closed, toMLA_closed, toChicago_closed, toHarvard_closed.
  unfold titleMarkup.
  assert (B : type c <> book -> isBook (type c) = false)
    by (destruct (type c); [intros ne; now elim ne | reflexivity ..]).
  split; [intros E; rewrite E; cbn [isBook] | intros ne; rewrite (B ne)].
  all: repeat split.
  all: match goal with
       | |- Occurs _ (?a ++ " " ++ ?y ++ ". " ++ ?t ++ "." ++ ?rest) =>
           exists (a ++ " " ++ y), rest
       | |- Occurs _ (?a ++ ". " ++ ?y ++ ". " ++ ?t ++ "." ++ ?rest) =>
           exists (a ++ ". " ++ y), rest
       | |- Occurs _ (?a ++ ". " ++ ?t ++ "." ++ ?rest) =>
           exists a, rest
       | |- Occurs _ (?a ++ " (" ++ ?y ++ ") " ++ ?t ++ "." ++ ?rest) =>
           exists (a ++ " (" ++ y), rest
       end.
  all: now autorewrite with str.
Qed.

Lemma X22_title_markup_witness :
  type (sampleCitation ["John Smith"] None None article) <> book /\
  Occurs (". " ++ quoted "Research Paper" ++ ".")
         (toMLA (sampleCitation ["John Smith"] None None article)).
Proof.
  assert (ne : type (sampleCitation ["John Smith"] None None article) <> book)
    by discriminate.
  split; [exact ne|].
  exact (proj1 (proj2 (proj2
    (X22_title_markup (sampleCitation ["John Smith"] None None article)) ne))).
Defined.

(** X23: a record without an author list becomes a citation without
    authors, which the four styles open with "Unknown Author" and whose
    BibTeX key starts with "unknown", for each of the three adapters. *)
Theorem X23_missing_authors (getFullYear : string -> number)
  (r : Reference) (g : GoogleBooksItem) (o : OpenLibraryItem) :
  ref_author r = None -> gb_authors g = None -> ol_author_name o = None ->
  Forall (fun c =>
            authors c = [] /\
            prefix "Unknown Author (" (toAPA c) = true /\
            prefix "Unknown Author. " (toMLA c) = true /\
            prefix "Unknown Author. " (toChicago c) = true /\
            prefix "Unknown Author (" (toHarvard c) = true /\
            prefix "unknown" (generateBibTeXKey c) = true)
         [fromCrossref getFullYear r; fromGoogleBooks getFullYear g;
          fromOpenLibrary o].
Proof.
  intros Hr Hg Ho.
  assert (K : forall c, authors c = [] ->
            authors c = [] /\
            prefix "Unknown Author (" (toAPA c) = true /\
            prefix "Unknown Author. " (toMLA c) = true /\
            prefix "Unknown Author. " (toChicago c) = true /\
            prefix "Unknown Author (" (toHarvard c) = true /\
            prefix "unknown" (generateBibTeXKey c) = true).
  { intros c E.
    pose proof (toAPA_opens c) as HA. pose proof (toMLA_opens c) as HM.
    pose proof (toChicago_opens c) as HC.
    pose proof (toHarvard_opens c) as HH.
    rewrite E in HA, HM, HC, HH.
    repeat split; try assumption.
    unfold generateBibTeXKey, keyAuthor. rewrite E. starts_with. }
  repeat constructor; apply K;
    cbn [fromCrossref fromGoogleBooks fromOpenLibrary authors];
    rewrite ?Hr, ?Hg, ?Ho; reflexivity.
Qed.

Lemma X23_missing_authors_witness :
  ref_author (mkReference None None None None None None None None None
                "book" None) = None /\
  gb_authors (datedBook "2009") = None /\
  ol_author_name (mkOpenLibraryItem "/works/OL1W" "Anonymous Work" None None
                    None None None) = None /\
  prefix "Unknown Author. "
    (toMLA (fromOpenLibrary (mkOpenLibraryItem "/works/OL1W" "Anonymous Work"
                               None None None None None))) = true.
Proof.
  repeat (split; [reflexivity|]).
  pose proof (X23_missing_authors noDate
                (mkReference None None None None None None None None None
                   "book" None)
                (datedBook "2009")
                (mkOpenLibraryItem "/works/OL1W" "Anonymous Work" None None
                   None None None)
                eq_refl eq_refl eq_refl) as F.
  exact (proj1 (proj2 (proj2
           (Forall_inv (Forall_inv_tail (Forall_inv_tail F)))))).
Defined.
